(** * ricexpro.py: gene search on RiceXPro, download and side-by-side display

    A shallow embedding of [src/ricexpro.py].  The script drives a browser
    (selenium), downloads two bar charts (requests), decodes them (PIL),
    pastes them next to each other and shows the result (matplotlib).

    - Python integers are [Z], strings are [string], [bytes] are lists of
      bytes, tuples are pairs.
    - PIL images are objects: they live in a heap ([list Image], a reference
      is an index) so that [paste], which mutates its receiver, is modelled
      as an update of the store.
    - Every call that leaves the process (browser, HTTP, display, stdout) is
      recorded in a log together with its result; the behaviour of the
      outside world is an oracle that may depend on everything that
      happened so far.
    - Python control flow ([return] inside [try]/[finally], [break],
      exceptions) is a small monad with an outcome type. *)

From Stdlib Require Import ZArith String List Lia Bool.
From Stdlib.Strings Require Import Byte.
From stdpp Require Import base list list_numbers option.

Open Scope string_scope.
Open Scope list_scope.
Open Scope Z_scope.

(** ** Python values and exceptions *)

(** The exception classes the script can meet.  [OtherError] stands for any
    class not named here. *)
Inductive exn : Type :=
  | NoSuchElementException
  | WebDriverException (msg : string)
  | HTTPError (status_code : Z)
  | RequestException (msg : string)
  | UnidentifiedImageError
  | TypeError (msg : string)
  | ValueError (msg : string)
  | SystemError (msg : string)
  | OtherError (name : string).

(** What [main] can hand back: [None] (falling off the end) or a boolean. *)
Inductive pyval : Type :=
  | PyNone
  | PyBool (b : bool).

(** Python truth value: [bool(None)] is [False]. *)
Definition truthy (v : pyval) : bool :=
  match v with
  | PyNone => false
  | PyBool b => b
  end.

(** Result of one call into a collaborator. *)
Inductive result (A : Type) : Type :=
  | Ok (a : A)
  | Err (e : exn).
Arguments Ok {A} a.
Arguments Err {A} e.

(** ** PIL images *)

Definition bytes := list Byte.byte.

(** A pixel is the tuple of band values [getpixel] returns. *)
Definition pixel := list Z.

Record Image : Type := mkImage {
  im_mode : string;
  im_size : Z * Z;                (* (width, height) *)
  im_rows : list (list pixel)     (* im->image[y][x] *)
}.

Definition im_width (im : Image) : Z := fst (im_size im).
Definition im_height (im : Image) : Z := snd (im_size im).

(** Rows and columns agree with the size. *)
Definition valid_image (im : Image) : Prop :=
  0 <= im_width im /\ 0 <= im_height im /\
  length (im_rows im) = Z.to_nat (im_height im) /\
  Forall (fun row => length row = Z.to_nat (im_width im)) (im_rows im).

(** The raster image of the specification: a valid image in mode RGB. *)
Definition raster_image (im : Image) : Prop :=
  valid_image im /\ im_mode im = "RGB".

(** Pixel at column [x], row [y]; [None] outside the image. *)
Definition pixel_at (im : Image) (x y : Z) : option pixel :=
  if (0 <=? x) && (x <? im_width im) && (0 <=? y) && (y <? im_height im)
  then im_rows im !! Z.to_nat y ≫= (fun row => row !! Z.to_nat x)
  else None.

(** Raw read of the storage, with an empty tuple where there is none. *)
Definition raw_pixel (im : Image) (x y : Z) : pixel :=
  default [] (im_rows im !! Z.to_nat y ≫= (fun row => row !! Z.to_nat x)).

(** A [w] by [h] block of rows whose pixel at [(x, y)] is [f x y]. *)
Definition raster (w h : Z) (f : Z -> Z -> pixel) : list (list pixel) :=
  (fun y => (fun x => f x y) <$> seqZ 0 w) <$> seqZ 0 h.

(** Number of bands of the standard modes; [None] for an unknown mode. *)
Definition mode_bands (mode : string) : option nat :=
  if existsb (String.eqb mode) ["1"; "L"; "P"; "I"; "F"] then Some 1%nat
  else if existsb (String.eqb mode) ["LA"; "La"; "PA"] then Some 2%nat
  else if existsb (String.eqb mode) ["RGB"; "YCbCr"; "LAB"; "HSV"] then Some 3%nat
  else if existsb (String.eqb mode) ["RGBA"; "RGBa"; "RGBX"; "CMYK"] then Some 4%nat
  else None.

(** [Image.new(mode, size)] with the default colour 0: every band is 0.
    A negative width or height, or an unknown mode, is a [ValueError]. *)
Definition Image_new_value (mode : string) (size : Z * Z) : result Image :=
  let '(w, h) := size in
  if (w <? 0) || (h <? 0) then Err (ValueError "Width and height must be >= 0")
  else match mode_bands mode with
       | None => Err (ValueError "unrecognized image mode")
       | Some n => Ok (mkImage mode (w, h) (raster w h (fun _ _ => repeat 0 n)))
       end.

(** Pixels of an LA, RGBA or RGBa image as read through an RGB image: PIL
    keeps all four in 4-byte pixels and [paste] copies them verbatim. *)
Definition reinterpret_as_RGB (im : Image) : Image :=
  mkImage "RGB" (im_size im)
    (fmap (M := list)
       (fmap (M := list)
          (fun px : pixel =>
             if String.eqb (im_mode im) "LA"
             then match px with l :: _ => [l; l; l] | [] => [] end
             else take 3 px))
       (im_rows im)).

(** The source image [paste] really copies from: converted to the mode of the
    destination unless the modes agree or the copy is the verbatim one. *)
Definition paste_source (convert : Image -> string -> Image)
    (self im : Image) : Image :=
  if String.eqb (im_mode self) (im_mode im) then im
  else if negb (String.eqb (im_mode self) "RGB")
          || negb (existsb (String.eqb (im_mode im)) ["LA"; "RGBA"; "RGBa"])
       then convert im (im_mode self)
       else reinterpret_as_RGB im.

(** [self.paste(im, (x0, y0))] on values.  The box is completed with the size
    of [im]; the part of the box inside [self] is overwritten, the rest of
    [self] is kept. *)
Definition paste_value (convert : Image -> string -> Image)
    (self im : Image) (box : Z * Z) : Image :=
  let '(x0, y0) := box in
  let x1 := x0 + im_width im in
  let y1 := y0 + im_height im in
  let src := paste_source convert self im in
  mkImage (im_mode self) (im_size self)
    (raster (im_width self) (im_height self)
       (fun x y =>
          if (x0 <=? x) && (x <? x1) && (y0 <=? y) && (y <? y1)
          then raw_pixel src (x - x0) (y - y0)
          else raw_pixel self x y)).

(** ** The outside world *)

Definition WebDriver := nat.
Definition WebElement := nat.

Record Response : Type := mkResponse {
  status_code : Z;
  content : bytes
}.

(** The four matplotlib calls of [display_image]. *)
Inductive plt_call : Type :=
  | plt_figure (figsize : Z * Z)
  | plt_imshow (image : Image)
  | plt_axis (arg : string)
  | plt_show.

(** One entry of the log: the call, its arguments and what came back. *)
Inductive event : Type :=
  | EvChrome (r : result WebDriver)
  | EvGet (d : WebDriver) (url : string) (r : result unit)
  | EvFindElement (d : WebDriver) (by_ value : string) (r : result WebElement)
  | EvSendKeys (el : WebElement) (keys : string) (r : result unit)
  | EvClick (el : WebElement) (r : result unit)
  | EvGetAttribute (el : WebElement) (name : string) (r : result (option string))
  | EvQuit (d : WebDriver) (r : result unit)
  | EvRequestsGet (url : string) (r : result Response)
  | EvPlt (c : plt_call) (r : result unit)
  | EvPrint (text : string).

(** The behaviour of the collaborators.  Each answer may depend on the log so
    far (most recent event first). *)
Record World : Type := mkWorld {
  webdriver_Chrome : list event -> result WebDriver;
  driver_get : list event -> WebDriver -> string -> result unit;
  driver_find_element : list event -> WebDriver -> string -> string -> result WebElement;
  element_send_keys : list event -> WebElement -> string -> result unit;
  element_click : list event -> WebElement -> result unit;
  element_get_attribute : list event -> WebElement -> string -> result (option string);
  driver_quit : list event -> WebDriver -> result unit;
  requests_get : list event -> string -> result Response;
  pyplot : list event -> plt_call -> result unit;
  Image_decode : bytes -> option Image;
  convert_pixel : Image -> string -> pixel -> pixel
}.

(** [im.convert(mode)]: an image of the same size in the new mode.  What
    becomes of each pixel is PIL's business and is left to the world. *)
Definition Image_convert (W : World) (im : Image) (mode : string) : Image :=
  mkImage mode (im_size im)
    (fmap (M := list) (fmap (M := list) (convert_pixel W im mode)) (im_rows im)).

(** ** The monad of the script *)

Record State : Type := mkState {
  log : list event;        (* most recent first *)
  heap : list Image
}.

(** How a block of statements ends. *)
Inductive outcome (A : Type) : Type :=
  | Normal (a : A)
  | Return (v : pyval)
  | Break
  | Raise (e : exn).
Arguments Normal {A} a.
Arguments Return {A} v.
Arguments Break {A}.
Arguments Raise {A} e.

Definition M (A : Type) : Type := World -> State -> outcome A * State.

Definition ret {A} (a : A) : M A := fun _ s => (Normal a, s).

Definition bind {A B} (m : M A) (k : A -> M B) : M B :=
  fun W s =>
    match m W s with
    | (Normal a, s') => k a W s'
    | (Return v, s') => (Return v, s')
    | (Break, s') => (Break, s')
    | (Raise e, s') => (Raise e, s')
    end.

Notation "x <- m ;; k" := (bind m (fun x => k))
  (at level 100, m at next level, right associativity).
Notation "m ;;; k" := (bind m (fun _ => k))
  (at level 100, right associativity).

Definition raise {A} (e : exn) : M A := fun _ s => (Raise e, s).
Definition return_ {A} (v : pyval) : M A := fun _ s => (Return v, s).
Definition break_ {A} : M A := fun _ s => (Break, s).

(** A call into a collaborator: ask the oracle, log the event, continue or
    raise. *)
Definition do_call {A} (ask : World -> list event -> result A)
    (ev : result A -> event) : M A :=
  fun W s =>
    let r := ask W (log s) in
    let s' := mkState (ev r :: log s) (heap s) in
    match r with
    | Ok a => (Normal a, s')
    | Err e => (Raise e, s')
    end.

(** [try: body / except cls: handler], where [catches] tells the classes. *)
Definition try_except {A} (body : M A) (catches : exn -> bool)
    (handler : M A) : M A :=
  fun W s =>
    match body W s with
    | (Raise e, s') => if catches e then handler W s' else (Raise e, s')
    | other => other
    end.

(** [try: body / finally: final].  [final] runs however [body] ends; when it
    ends normally the outcome of [body] stands, otherwise its own does. *)
Definition try_finally {A} (body : M A) (final : M unit) : M A :=
  fun W s =>
    match body W s with
    | (o, s') =>
        match final W s' with
        | (Normal _, s'') => (o, s'')
        | (Return v, s'') => (Return v, s'')
        | (Break, s'') => (Break, s'')
        | (Raise e, s'') => (Raise e, s'')
        end
    end.

(** A function call: [return v] ends the body with value [v], falling off
    the end gives [None].  A [break] cannot reach a function boundary in a
    program Python accepts; the case is there to keep the function total. *)
Definition def (body : M unit) : M pyval :=
  fun W s =>
    match body W s with
    | (Normal _, s') => (Normal PyNone, s')
    | (Return v, s') => (Normal v, s')
    | (Break, s') => (Raise (SystemError "break outside loop"), s')
    | (Raise e, s') => (Raise e, s')
    end.

(** [while True: body] with a bound on the number of iterations; [None] when
    the bound is reached.  [break] leaves the loop, an exception leaves it
    with the exception. *)
Fixpoint while_True (fuel : nat) (body : M unit) (W : World) (s : State)
    : option (outcome unit * State) :=
  match fuel with
  | O => None
  | S n =>
      match body W s with
      | (Normal _, s') => while_True n body W s'
      | (Break, s') => Some (Normal tt, s')
      | (Return v, s') => Some (Return v, s')
      | (Raise e, s') => Some (Raise e, s')
      end
  end.

(** *** Image objects in the heap *)

Definition ImageRef := nat.

Definition alloc (im : Image) : M ImageRef :=
  fun _ s => (Normal (length (heap s)), mkState (log s) (heap s ++ [im])).

(** Reading through a reference.  A reference the script holds always points
    into the heap; the error case is there to keep the function total. *)
Definition deref (r : ImageRef) : M Image :=
  fun _ s =>
    match heap s !! r with
    | Some im => (Normal im, s)
    | None => (Raise (SystemError "dangling image reference"), s)
    end.

Definition store (r : ImageRef) (im : Image) : M unit :=
  fun _ s => (Normal tt, mkState (log s) (<[r := im]> (heap s))).

(** [image.size] *)
Definition Image_size (r : ImageRef) : M (Z * Z) :=
  im <- deref r ;; ret (im_size im).

(** [Image.new(mode, size)] *)
Definition Image_new (mode : string) (size : Z * Z) : M ImageRef :=
  match Image_new_value mode size with
  | Ok im => alloc im
  | Err e => raise e
  end.

(** [self.paste(im, box)]: [self] is updated in place. *)
Definition Image_paste (self im : ImageRef) (box : Z * Z) : M unit :=
  fun W =>
    (src <- deref im ;;
     dst <- deref self ;;
     store self (paste_value (Image_convert W) dst src box)) W.

(** [Image.open(BytesIO(content))] *)
Definition Image_open (content : bytes) : M ImageRef :=
  fun W =>
    match Image_decode W content with
    | Some im => alloc im W
    | None => raise UnidentifiedImageError W
    end.

(** ** The script *)

(** [response.raise_for_status()]: 4xx and 5xx raise. *)
Definition raise_for_status (response : Response) : M unit :=
  if (400 <=? status_code response) && (status_code response <? 600)
  then raise (HTTPError (status_code response))
  else ret tt.

Definition download_image (url : string) : M ImageRef :=
  response <- do_call (fun W l => requests_get W l url) (EvRequestsGet url) ;;
  raise_for_status response ;;;
  Image_open (content response).

Definition concatenate_images_horizontally (image1 image2 : ImageRef)
    : M ImageRef :=
  (* Get the dimensions of the images *)
  size1 <- Image_size image1 ;;
  size2 <- Image_size image2 ;;
  let '(width1, height1) := size1 in
  let '(width2, height2) := size2 in
  (* Create a new image with the combined width and the max height *)
  new_image <- Image_new "RGB" (width1 + width2, Z.max height1 height2) ;;
  (* Paste the images into the new image *)
  Image_paste new_image image1 (0, 0) ;;;
  Image_paste new_image image2 (width1, 0) ;;;
  ret new_image.

Definition plt (c : plt_call) : M unit :=
  do_call (fun W l => pyplot W l c) (EvPlt c).

Definition display_image (image : ImageRef) : M unit :=
  plt (plt_figure (25, 8)) ;;;
  im <- deref image ;;
  plt (plt_imshow im) ;;;
  plt (plt_axis "off") ;;;
  plt plt_show.

(** The parsed command line: one positional argument [gene]. *)
Record Namespace : Type := mkNamespace {
  gene : string
}.

Definition newline : string := String (Ascii.ascii_of_nat 10) EmptyString.

(** [print(a, b, ...)]: the arguments joined by one space, then a newline. *)
Definition print (args : list string) : M unit :=
  fun _ s =>
    (Normal tt,
     mkState (EvPrint (String.concat " " args ++ newline)%string :: log s) (heap s)).

(** [pre + v] where [v] may be [None]. *)
Definition str_add (pre : string) (v : option string) : M string :=
  match v with
  | Some suffix => ret (pre ++ suffix)%string
  | None => raise (TypeError "can only concatenate str (not NoneType) to str")
  end.

(** Locator strategies of selenium's [By]. *)
Definition By_NAME : string := "name".
Definition By_XPATH : string := "xpath".
Definition By_CLASS_NAME : string := "class name".

Definition is_NoSuchElementException (e : exn) : bool :=
  match e with
  | NoSuchElementException => true
  | _ => false
  end.

Definition find_element (driver : WebDriver) (by_ value : string) : M WebElement :=
  do_call (fun W l => driver_find_element W l driver by_ value)
          (EvFindElement driver by_ value).

Definition get_attribute (element : WebElement) (name : string) : M (option string) :=
  do_call (fun W l => element_get_attribute W l element name)
          (EvGetAttribute element name).

(** [main(gene)].  [args] is the module-level variable the body reads; the
    parameter [gene] is not used by the body. *)
Definition main (args : Namespace) (gene_param : string) : M pyval :=
  def (
    (* set up WebDriver *)
    driver <- do_call webdriver_Chrome EvChrome ;;
    try_finally (
      (* Navigate to RiceXPro *)
      do_call (fun W l => driver_get W l driver "https://ricexpro.dna.affrc.go.jp/RXP_4001/")
              (EvGet driver "https://ricexpro.dna.affrc.go.jp/RXP_4001/") ;;;
      (* Find search box and button *)
      search_box <- find_element driver By_NAME "keyword" ;;
      search_button <- find_element driver By_XPATH
                         "//input[@type='submit' and @value='Search']" ;;
      (* search gene *)
      do_call (fun W l => element_send_keys W l search_box (gene args))
              (EvSendKeys search_box (gene args)) ;;;
      do_call (fun W l => element_click W l search_button)
              (EvClick search_button) ;;;
      (* get the URLs for each graph *)
      element <- try_except
                   (find_element driver By_CLASS_NAME "graph-link")
                   is_NoSuchElementException
                   (print ["No hits for"; gene args] ;;;
                    return_ (PyBool false)) ;;
      (* if there is a hit *)
      let pre := "https://ricexpro.dna.affrc.go.jp/RXP_4001/" in
      dev_attr <- get_attribute element "dev_barimg" ;;
      dev <- str_add pre dev_attr ;;
      tissue_attr <- get_attribute element "tissue_barimg" ;;
      tissue <- str_add pre tissue_attr ;;
      (* get the barplots and combine them *)
      image1 <- download_image dev ;;
      image2 <- download_image tissue ;;
      (* Concatenate the images horizontally *)
      im <- concatenate_images_horizontally image1 image2 ;;
      display_image im
    ) (
      do_call (fun W l => driver_quit W l driver) (EvQuit driver)
    )
  ).

(** The module body after argument parsing:
    [while True: if not main(args.gene): break]. *)
Definition script (fuel : nat) (args : Namespace) (W : World) (s : State)
    : option (outcome unit * State) :=
  while_True fuel
    (r <- main args (gene args) ;;
     if negb (truthy r) then break_ else ret tt)
    W s.

(** The state in which the process starts. *)
Definition initial_state : State := mkState [] [].

(** The log in the order the calls happened. *)
Definition trace (s : State) : list event := rev (log s).

(** ** Notions used to state the properties *)

(** The image [concatenate_images_horizontally] leaves in the heap, as a
    function of the contents of its two arguments: the black canvas with the
    first image pasted at [(0, 0)], then the second at [(width1, 0)]. *)
Definition concatenated (convert : Image -> string -> Image) (a b : Image)
    : result Image :=
  match Image_new_value "RGB"
          (im_width a + im_width b, Z.max (im_height a) (im_height b)) with
  | Ok new_image =>
      Ok (paste_value convert
            (paste_value convert new_image a (0, 0)) b (im_width a, 0))
  | Err e => Err e
  end.

(** A call returns a reference to an image with contents [out]. *)
Definition yields (m : M ImageRef) (W : World) (s : State) (out : Image) : Prop :=
  exists r s', m W s = (Normal r, s') /\ heap s' !! r = Some out.

(** The outcome of a call that does nothing but allocate the image [o] (or
    raise): nothing is logged, every object of the heap is as it was. *)
Definition allocates_only (s : State) (o : result Image)
    : outcome ImageRef * State :=
  match o with
  | Ok im => (Normal (length (heap s)), mkState (log s) (heap s ++ [im]))
  | Err e => (Raise e, s)
  end.

(** Regions of the output of [concatenate_images_horizontally image1 image2]
    that the two pastes write. *)
Definition in_first_region (a : Image) (x y : Z) : bool :=
  (0 <=? x) && (x <? im_width a) && (0 <=? y) && (y <? im_height a).

Definition in_second_region (a b : Image) (x y : Z) : bool :=
  (im_width a <=? x) && (x <? im_width a + im_width b)
  && (0 <=? y) && (y <? im_height b).

Definition black : pixel := [0; 0; 0].

(** The positions of [out] no paste has written form the [gw] by [gh]
    rectangle directly below the first image. *)
Definition gap_below_first (a b out : Image) (gw gh : Z) : Prop :=
  forall x y,
    0 <= x < im_width out -> 0 <= y < im_height out ->
    (in_first_region a x y = false /\ in_second_region a b x y = false
     <-> 0 <= x < gw /\ im_height a <= y < im_height a + gh).

(** *** Sample data *)

(** An RGB image of one colour. *)
Definition solid (w h : Z) (px : pixel) : Image :=
  mkImage "RGB" (w, h) (raster w h (fun _ _ => px)).

Definition white : pixel := [255; 255; 255].

(** A world in which every call succeeds: one result element with both
    attributes, status 200, and a decoder that yields a 2 by 1 white image. *)
Definition friendly_world : World := {|
  webdriver_Chrome := fun _ => Ok 0%nat;
  driver_get := fun _ _ _ => Ok tt;
  driver_find_element := fun _ _ _ value =>
    if String.eqb value "keyword" then Ok 1%nat
    else if String.eqb value "graph-link" then Ok 3%nat
    else Ok 2%nat;
  element_send_keys := fun _ _ _ => Ok tt;
  element_click := fun _ _ => Ok tt;
  element_get_attribute := fun _ _ name => Ok (Some (name ++ ".png")%string);
  driver_quit := fun _ _ => Ok tt;
  requests_get := fun _ _ => Ok (mkResponse 200 []);
  pyplot := fun _ _ => Ok tt;
  Image_decode := fun _ => Some (solid 2 1 white);
  convert_pixel := fun _ _ px => px
|}.

(** A state whose heap holds two images, at references 0 and 1. *)
Definition two_images (a b : Image) : State := mkState [] [a; b].

(** *** Reading a log *)

Definition is_Chrome (ev : event) : bool :=
  match ev with EvChrome _ => true | _ => false end.

Definition is_Quit (ev : event) : bool :=
  match ev with EvQuit _ _ => true | _ => false end.

Definition is_RequestsGet (ev : event) : bool :=
  match ev with EvRequestsGet _ _ => true | _ => false end.

Definition is_Plt (ev : event) : bool :=
  match ev with EvPlt _ _ => true | _ => false end.

Definition is_show (ev : event) : bool :=
  match ev with EvPlt plt_show _ => true | _ => false end.

(** Number of events of a kind. *)
Definition count (p : event -> bool) (t : list event) : nat :=
  length (List.filter p t).

(** Every call of [main] starts with [webdriver.Chrome()], so the number of
    ticks of the loop is the number of these calls. *)
Definition ticks (t : list event) : nat := count is_Chrome t.

(** How the process ends when the last call of [main] ends with [o]. *)
Definition exit_of (rq : result unit) (o : outcome unit) : outcome unit :=
  match rq with
  | Ok _ => o
  | Err e => Raise e
  end.

(** The statuses for which [raise_for_status] raises. *)
Definition client_or_server_error (c : Z) : bool := (400 <=? c) && (c <? 600).

(** The successful class of HTTP statuses, 2xx. *)
Definition successful_status (c : Z) : bool := (200 <=? c) && (c <? 300).

(** The answer [r] to the HTTP request makes [download_image] fail with [e]:
    the request itself raised, or the status is a client or server error, or
    the body does not decode. *)
Definition fails_with (W : World) (r : result Response) (e : exn) : Prop :=
  match r with
  | Err e0 => e = e0
  | Ok resp =>
      (client_or_server_error (status_code resp) = true /\
       e = HTTPError (status_code resp))
      \/ (client_or_server_error (status_code resp) = false /\
          Image_decode W (content resp) = None /\
          e = UnidentifiedImageError)
  end.

(** The friendly world, except that every HTTP request is answered with the
    given status. *)
Definition world_with_status (c : Z) : World := {|
  webdriver_Chrome := webdriver_Chrome friendly_world;
  driver_get := driver_get friendly_world;
  driver_find_element := driver_find_element friendly_world;
  element_send_keys := element_send_keys friendly_world;
  element_click := element_click friendly_world;
  element_get_attribute := element_get_attribute friendly_world;
  driver_quit := driver_quit friendly_world;
  requests_get := fun _ _ => Ok (mkResponse c []);
  pyplot := pyplot friendly_world;
  Image_decode := Image_decode friendly_world;
  convert_pixel := convert_pixel friendly_world
|}.

(** The friendly world, except that the page has no result element. *)
Definition no_hits_world : World := {|
  webdriver_Chrome := webdriver_Chrome friendly_world;
  driver_get := driver_get friendly_world;
  driver_find_element := fun _ _ _ value =>
    if String.eqb value "keyword" then Ok 1%nat
    else if String.eqb value "graph-link" then Err NoSuchElementException
    else Ok 2%nat;
  element_send_keys := element_send_keys friendly_world;
  element_click := element_click friendly_world;
  element_get_attribute := element_get_attribute friendly_world;
  driver_quit := driver_quit friendly_world;
  requests_get := requests_get friendly_world;
  pyplot := pyplot friendly_world;
  Image_decode := Image_decode friendly_world;
  convert_pixel := convert_pixel friendly_world
|}.

Definition sample_args : Namespace := mkNamespace "Os01g0100100".

(** The state in which a run in [no_hits_world] ends. *)
Definition no_hits_final : State :=
  mkState
    [EvQuit 0%nat (Ok tt);
     EvPrint ("No hits for Os01g0100100" ++ newline)%string;
     EvFindElement 0%nat By_CLASS_NAME "graph-link" (Err NoSuchElementException);
     EvClick 2%nat (Ok tt);
     EvSendKeys 1%nat "Os01g0100100" (Ok tt);
     EvFindElement 0%nat By_XPATH "//input[@type='submit' and @value='Search']" (Ok 2%nat);
     EvFindElement 0%nat By_NAME "keyword" (Ok 1%nat);
     EvGet 0%nat "https://ricexpro.dna.affrc.go.jp/RXP_4001/" (Ok tt);
     EvChrome (Ok 0%nat)]
    [].

(** The calls of a run in [friendly_world], in the order they happen, and the
    images it leaves in the heap. *)
Definition found_composite : Image :=
  mkImage "RGB" (4, 1) [[white; white; white; white]].

Definition found_trace : list event :=
  [EvChrome (Ok 0%nat);
   EvGet 0%nat "https://ricexpro.dna.affrc.go.jp/RXP_4001/" (Ok tt);
   EvFindElement 0%nat By_NAME "keyword" (Ok 1%nat);
   EvFindElement 0%nat By_XPATH "//input[@type='submit' and @value='Search']" (Ok 2%nat);
   EvSendKeys 1%nat "Os01g0100100" (Ok tt);
   EvClick 2%nat (Ok tt);
   EvFindElement 0%nat By_CLASS_NAME "graph-link" (Ok 3%nat);
   EvGetAttribute 3%nat "dev_barimg" (Ok (Some "dev_barimg.png"));
   EvGetAttribute 3%nat "tissue_barimg" (Ok (Some "tissue_barimg.png"));
   EvRequestsGet "https://ricexpro.dna.affrc.go.jp/RXP_4001/dev_barimg.png"
     (Ok (mkResponse 200 []));
   EvRequestsGet "https://ricexpro.dna.affrc.go.jp/RXP_4001/tissue_barimg.png"
     (Ok (mkResponse 200 []));
   EvPlt (plt_figure (25, 8)) (Ok tt);
   EvPlt (plt_imshow found_composite) (Ok tt);
   EvPlt (plt_axis "off") (Ok tt);
   EvPlt plt_show (Ok tt);
   EvQuit 0%nat (Ok tt)].

Definition found_final : State :=
  mkState (rev found_trace)
    [solid 2 1 white; solid 2 1 white; found_composite].

(** The lookup of the result element that found nothing. *)
Definition is_no_hit (ev : event) : bool :=
  match ev with
  | EvFindElement _ _ value (Err NoSuchElementException) =>
      String.eqb value "graph-link"
  | _ => false
  end.

(** *** More notions and sample data *)

Definition is_Print (ev : event) : bool :=
  match ev with EvPrint _ => true | _ => false end.

Definition is_FindElement (ev : event) : bool :=
  match ev with EvFindElement _ _ _ _ => true | _ => false end.

Definition is_GetAttribute (ev : event) : bool :=
  match ev with EvGetAttribute _ _ _ => true | _ => false end.

Definition is_SendKeys (ev : event) : bool :=
  match ev with EvSendKeys _ _ _ => true | _ => false end.

Definition is_Click (ev : event) : bool :=
  match ev with EvClick _ _ => true | _ => false end.

Definition is_Get (ev : event) : bool :=
  match ev with EvGet _ _ _ => true | _ => false end.

(** [plt.show()] has returned. *)
Definition is_shown (ev : event) : bool :=
  match ev with EvPlt plt_show (Ok _) => true | _ => false end.

(** The address [main] navigates to and prefixes to both image paths. *)
Definition RXP_base : string := "https://ricexpro.dna.affrc.go.jp/RXP_4001/".

(** The state [s'] is the end of a call of [main] that went through: every
    call succeeded, both images were requested (the developmental chart
    first), decoded, and the composite with the developmental chart on the
    left was shown. *)
Definition hit_run (args : Namespace) (W : World) (s' : State) : Prop :=
  exists d box button el dev tissue resp1 resp2 im1 im2 out,
    log s' =
      [EvQuit d (Ok tt);
       EvPlt plt_show (Ok tt);
       EvPlt (plt_axis "off") (Ok tt);
       EvPlt (plt_imshow out) (Ok tt);
       EvPlt (plt_figure (25, 8)) (Ok tt);
       EvRequestsGet (RXP_base ++ tissue)%string (Ok resp2);
       EvRequestsGet (RXP_base ++ dev)%string (Ok resp1);
       EvGetAttribute el "tissue_barimg" (Ok (Some tissue));
       EvGetAttribute el "dev_barimg" (Ok (Some dev));
       EvFindElement d By_CLASS_NAME "graph-link" (Ok el);
       EvClick button (Ok tt);
       EvSendKeys box (gene args) (Ok tt);
       EvFindElement d By_XPATH "//input[@type='submit' and @value='Search']"
         (Ok button);
       EvFindElement d By_NAME "keyword" (Ok box);
       EvGet d RXP_base (Ok tt);
       EvChrome (Ok d)] /\
    Image_decode W (content resp1) = Some im1 /\
    Image_decode W (content resp2) = Some im2 /\
    concatenated (Image_convert W) im1 im2 = Ok out /\
    heap s' = [im1; im2; out].

(** The friendly world, except that the page has no search box. *)
Definition no_search_box_world : World := {|
  webdriver_Chrome := webdriver_Chrome friendly_world;
  driver_get := driver_get friendly_world;
  driver_find_element := fun _ _ _ value =>
    if String.eqb value "keyword" then Err NoSuchElementException
    else driver_find_element friendly_world [] 0%nat "" value;
  element_send_keys := element_send_keys friendly_world;
  element_click := element_click friendly_world;
  element_get_attribute := element_get_attribute friendly_world;
  driver_quit := driver_quit friendly_world;
  requests_get := requests_get friendly_world;
  pyplot := pyplot friendly_world;
  Image_decode := Image_decode friendly_world;
  convert_pixel := convert_pixel friendly_world
|}.

Definition no_search_box_final : State :=
  mkState
    [EvQuit 0%nat (Ok tt);
     EvFindElement 0%nat By_NAME "keyword" (Err NoSuchElementException);
     EvGet 0%nat RXP_base (Ok tt);
     EvChrome (Ok 0%nat)]
    [].

(** The friendly world, except that the result element lacks its attributes. *)
Definition no_attribute_world : World := {|
  webdriver_Chrome := webdriver_Chrome friendly_world;
  driver_get := driver_get friendly_world;
  driver_find_element := driver_find_element friendly_world;
  element_send_keys := element_send_keys friendly_world;
  element_click := element_click friendly_world;
  element_get_attribute := fun _ _ _ => Ok None;
  driver_quit := driver_quit friendly_world;
  requests_get := requests_get friendly_world;
  pyplot := pyplot friendly_world;
  Image_decode := Image_decode friendly_world;
  convert_pixel := convert_pixel friendly_world
|}.

Definition no_attribute_final : State :=
  mkState
    [EvQuit 0%nat (Ok tt);
     EvGetAttribute 3%nat "dev_barimg" (Ok None);
     EvFindElement 0%nat By_CLASS_NAME "graph-link" (Ok 3%nat);
     EvClick 2%nat (Ok tt);
     EvSendKeys 1%nat "Os01g0100100" (Ok tt);
     EvFindElement 0%nat By_XPATH "//input[@type='submit' and @value='Search']" (Ok 2%nat);
     EvFindElement 0%nat By_NAME "keyword" (Ok 1%nat);
     EvGet 0%nat RXP_base (Ok tt);
     EvChrome (Ok 0%nat)]
    [].

(** A one-pixel image with an alpha band. *)
Definition translucent : Image := mkImage "RGBA" (1, 1) [[[9; 8; 7; 128]]].

(** A state whose heap holds three images, at references 0, 1 and 2. *)
Definition three_images (a b c : Image) : State := mkState [] [a; b; c].

(** * Properties *)

(** ** Rasters and pasting *)

Lemma raster_length w h f : length (raster w h f) = Z.to_nat h.
Proof. unfold raster. by rewrite length_fmap, length_seqZ. Qed.

Lemma raster_row_lengths w h f :
  Forall (fun row => length row = Z.to_nat w) (raster w h f).
Proof.
  unfold raster. apply Forall_fmap, Forall_forall. intros y _. simpl.
  by rewrite length_fmap, length_seqZ.
Qed.

Lemma raster_lookup w h f x y :
  0 <= x < w -> 0 <= y < h ->
  raster w h f !! Z.to_nat y ≫= (fun row => row !! Z.to_nat x) = Some (f x y).
Proof.
  intros Hx Hy. unfold raster.
  rewrite list_lookup_fmap, lookup_seqZ_lt by lia. simpl.
  rewrite list_lookup_fmap, lookup_seqZ_lt by lia. simpl.
  do 2 f_equal; lia.
Qed.

Lemma in_range_true x y w h :
  0 <= x < w -> 0 <= y < h ->
  (0 <=? x) && (x <? w) && (0 <=? y) && (y <? h) = true.
Proof. intros. repeat (apply andb_true_intro; split); lia. Qed.

Lemma pixel_at_raster m w h f x y :
  0 <= x < w -> 0 <= y < h ->
  pixel_at (mkImage m (w, h) (raster w h f)) x y = Some (f x y).
Proof.
  intros Hx Hy. unfold pixel_at, im_width, im_height. simpl.
  rewrite in_range_true by done. by apply raster_lookup.
Qed.

Lemma raw_pixel_raster m w h f x y :
  0 <= x < w -> 0 <= y < h ->
  raw_pixel (mkImage m (w, h) (raster w h f)) x y = f x y.
Proof.
  intros Hx Hy. unfold raw_pixel. simpl. by rewrite raster_lookup.
Qed.

(** In a valid image every position inside the size holds a pixel. *)
Lemma pixel_at_valid im x y :
  valid_image im -> 0 <= x < im_width im -> 0 <= y < im_height im ->
  pixel_at im x y = Some (raw_pixel im x y).
Proof.
  intros (_ & _ & Hrows & Hcols) Hx Hy. unfold pixel_at, raw_pixel.
  rewrite in_range_true by done.
  destruct (lookup_lt_is_Some_2 (im_rows im) (Z.to_nat y)) as [row Hrow]; [lia|].
  rewrite Hrow. simpl.
  pose proof (Forall_lookup_1 _ _ _ _ Hcols Hrow) as Hlen. simpl in Hlen.
  destruct (lookup_lt_is_Some_2 row (Z.to_nat x)) as [px Hpx]; [lia|].
  cbn. unfold pixel in *. by rewrite !Hpx.
Qed.

Lemma paste_value_mode cv self im box :
  im_mode (paste_value cv self im box) = im_mode self.
Proof. by destruct box. Qed.

Lemma paste_value_size cv self im box :
  im_size (paste_value cv self im box) = im_size self.
Proof. by destruct box. Qed.

Lemma paste_value_valid cv self im box :
  0 <= im_width self -> 0 <= im_height self ->
  valid_image (paste_value cv self im box).
Proof.
  intros Hw Hh. destruct box as [x0 y0]. unfold valid_image, im_width, im_height.
  simpl. repeat split; try done.
  - apply raster_length.
  - apply raster_row_lengths.
Qed.

Lemma raw_pixel_paste cv self im x0 y0 x y :
  0 <= x < im_width self -> 0 <= y < im_height self ->
  raw_pixel (paste_value cv self im (x0, y0)) x y =
    if (x0 <=? x) && (x <? x0 + im_width im) && (y0 <=? y) && (y <? y0 + im_height im)
    then raw_pixel (paste_source cv self im) (x - x0) (y - y0)
    else raw_pixel self x y.
Proof.
  intros Hx Hy. unfold paste_value.
  destruct self as [m [w h] rows]. unfold im_width, im_height in *. simpl in *.
  by rewrite raw_pixel_raster.
Qed.

Lemma paste_source_same_mode cv self im :
  im_mode im = im_mode self -> paste_source cv self im = im.
Proof. intros Hm. unfold paste_source. by rewrite Hm, String.eqb_refl. Qed.

(** *** The model on small images *)

(** A 2x1 white image next to a 1x2 image of colour (1, 2, 3): the second
    row of the first two columns keeps the fill colour. *)
Example concatenated_2x1_1x2 :
  concatenated (Image_convert friendly_world)
    (solid 2 1 white) (solid 1 2 [1; 2; 3])
  = Ok (mkImage "RGB" (3, 2)
          [[white; white; [1; 2; 3]];
           [black; black; [1; 2; 3]]]).
Proof. reflexivity. Qed.

(** An RGBA source is copied without its alpha band. *)
Example paste_RGBA_into_RGB :
  paste_value (Image_convert friendly_world)
    (solid 2 1 black) (mkImage "RGBA" (1, 1) [[[9; 8; 7; 128]]]) (1, 0)
  = mkImage "RGB" (2, 1) [[black; [9; 8; 7]]].
Proof. reflexivity. Qed.

(** A paste that sticks out of the destination is clipped. *)
Example paste_is_clipped :
  paste_value (Image_convert friendly_world)
    (solid 2 2 black) (solid 2 2 white) (1, 1)
  = mkImage "RGB" (2, 2) [[black; black]; [black; white]].
Proof. reflexivity. Qed.

(** Sizes below zero are refused by [Image.new]. *)
Example Image_new_negative :
  Image_new_value "RGB" (-1, 4) = Err (ValueError "Width and height must be >= 0").
Proof. reflexivity. Qed.

(** ** Heap steps *)

Lemma lookup_snoc_old (h : list Image) r im x :
  h !! r = Some im -> (h ++ [x]) !! r = Some im.
Proof. intros H. rewrite lookup_app_l; [done | by eapply lookup_lt_Some]. Qed.

Lemma lookup_snoc_new (h : list Image) x : (h ++ [x]) !! length h = Some x.
Proof. by rewrite lookup_app_r, Nat.sub_diag. Qed.

Lemma insert_snoc_new (h : list Image) x y :
  <[length h := y]> (h ++ [x]) = h ++ [y].
Proof.
  rewrite insert_app_r_alt by lia. by rewrite Nat.sub_diag.
Qed.

(** What a call of [concatenate_images_horizontally] does to the state: the
    log is untouched, the heap gains one object, the result is its reference. *)
Lemma concatenate_run W s image1 image2 a b :
  heap s !! image1 = Some a ->
  heap s !! image2 = Some b ->
  concatenate_images_horizontally image1 image2 W s =
    match concatenated (Image_convert W) a b with
    | Ok im => (Normal (length (heap s)), mkState (log s) (heap s ++ [im]))
    | Err e => (Raise e, s)
    end.
Proof.
  intros H1 H2. destruct s as [l h]. cbn [heap log] in *.
  destruct a as [ma [w1 h1] ra], b as [mb [w2 h2] rb].
  unfold concatenate_images_horizontally, concatenated, Image_size, Image_new.
  unfold im_width, im_height. cbn [im_size fst snd].
  cbv beta iota zeta delta [bind deref ret heap log].
  rewrite H1. cbv beta iota zeta delta [im_size]. rewrite H2.
  cbv beta iota zeta delta [im_size].
  destruct (Image_new_value "RGB" (w1 + w2, h1 `max` h2)) as [new_image|e]; [|done].
  cbv beta iota zeta delta [alloc Image_paste bind deref store ret heap log].
  rewrite (lookup_snoc_old _ _ _ _ H1), lookup_snoc_new.
  cbv beta iota zeta. rewrite insert_snoc_new.
  rewrite (lookup_snoc_old _ _ _ _ H2), lookup_snoc_new.
  cbv beta iota zeta. rewrite insert_snoc_new.
  reflexivity.
Qed.

(** ** The compositor *)

Lemma solid_valid w h px : 0 <= w -> 0 <= h -> valid_image (solid w h px).
Proof.
  intros Hw Hh. unfold valid_image, solid, im_width, im_height. simpl.
  repeat split; try done.
  - apply raster_length.
  - apply raster_row_lengths.
Qed.

Lemma solid_raster_image w h px : 0 <= w -> 0 <= h -> raster_image (solid w h px).
Proof. intros. split; [by apply solid_valid | done]. Qed.

(** The contents of the output for valid inputs: mode, size, and every pixel. *)
Lemma concatenated_spec cv a b :
  valid_image a -> valid_image b ->
  exists out,
    concatenated cv a b = Ok out /\
    valid_image out /\
    im_mode out = "RGB" /\
    im_size out = (im_width a + im_width b, Z.max (im_height a) (im_height b)) /\
    forall x y,
      0 <= x < im_width out -> 0 <= y < im_height out ->
      pixel_at out x y =
        Some (if in_second_region a b x y
              then raw_pixel (paste_source cv out b) (x - im_width a) y
              else if in_first_region a x y
                   then raw_pixel (paste_source cv out a) x y
                   else black).
Proof.
  intros (Hwa & Hha & _) (Hwb & Hhb & _).
  unfold concatenated, Image_new_value. cbn [mode_bands existsb String.eqb].
  set (w := im_width a + im_width b). set (h := Z.max (im_height a) (im_height b)).
  assert (Hw : 0 <= w) by lia. assert (Hh : 0 <= h) by lia.
  replace ((w <? 0) || (h <? 0)) with false
    by (symmetry; apply orb_false_intro; lia).
  set (canvas := mkImage "RGB" (w, h) (raster w h (fun _ _ => repeat 0 3%nat))).
  set (first := paste_value cv canvas a (0, 0)).
  set (out := paste_value cv first b (im_width a, 0)).
  assert (Hf : im_size first = (w, h)) by done.
  assert (Ho : im_size out = (w, h)) by done.
  assert (Hvalid : valid_image out).
  { apply paste_value_valid; unfold im_width, im_height; by rewrite Hf. }
  exists out. split; [reflexivity|].
  split; [done|]. split; [done|]. split; [done|].
  unfold im_width at 1, im_height at 1. rewrite Ho. cbn [fst snd].
  intros x y Hx Hy.
  rewrite pixel_at_valid by (unfold im_width, im_height; by rewrite ?Ho).
  f_equal. unfold out at 1.
  rewrite raw_pixel_paste by (unfold im_width, im_height; by rewrite Hf).
  unfold in_second_region, in_first_region.
  rewrite !Z.sub_0_r, !Z.add_0_l.
  destruct ((im_width a <=? x) && (x <? im_width a + im_width b)
            && (0 <=? y) && (y <? im_height b)) eqn:E2.
  { reflexivity. }
  unfold first at 1.
  rewrite raw_pixel_paste by done.
  rewrite !Z.sub_0_r, !Z.add_0_l.
  destruct ((0 <=? x) && (x <? im_width a) && (0 <=? y) && (y <? im_height a)) eqn:E1.
  { reflexivity. }
  unfold canvas. by rewrite raw_pixel_raster.
Qed.

Lemma concatenate_yields W s image1 image2 a b out :
  heap s !! image1 = Some a ->
  heap s !! image2 = Some b ->
  concatenated (Image_convert W) a b = Ok out ->
  yields (concatenate_images_horizontally image1 image2) W s out.
Proof.
  intros H1 H2 Hout. unfold yields.
  rewrite (concatenate_run W s image1 image2 a b H1 H2), Hout.
  eexists _, _. split; [reflexivity|]. cbn [heap]. apply lookup_snoc_new.
Qed.

Lemma yields_concatenated W s image1 image2 a b out :
  heap s !! image1 = Some a ->
  heap s !! image2 = Some b ->
  yields (concatenate_images_horizontally image1 image2) W s out ->
  concatenated (Image_convert W) a b = Ok out.
Proof.
  intros H1 H2 (r & s' & Hrun & Hr).
  rewrite (concatenate_run W s image1 image2 a b H1 H2) in Hrun.
  destruct (concatenated (Image_convert W) a b) as [im|e]; [|discriminate].
  inversion Hrun; subst r s'. cbn [heap] in Hr.
  rewrite lookup_snoc_new in Hr. congruence.
Qed.

(** C2: for valid images [a] and [b], the image returned by
    [concatenate_images_horizontally] is [a.width + b.width] wide and
    [max(a.height, b.height)] high. *)
Theorem concatenate_size W s image1 image2 a b :
  heap s !! image1 = Some a ->
  heap s !! image2 = Some b ->
  valid_image a -> valid_image b ->
  exists out,
    yields (concatenate_images_horizontally image1 image2) W s out /\
    im_width out = im_width a + im_width b /\
    im_height out = Z.max (im_height a) (im_height b).
Proof.
  intros H1 H2 Ha Hb.
  destruct (concatenated_spec (Image_convert W) a b Ha Hb)
    as (out & Hout & _ & _ & Hsize & _).
  exists out. split; [by eapply concatenate_yields|].
  unfold im_width at 1, im_height at 1. by rewrite Hsize.
Qed.

(** C3: for raster images [a] and [b] the output has the size
    [(a.width + b.width, max(a.height, b.height))], and at every position
    [(x, y)] of the output the pixel is [a]'s pixel at [(x, y)] when
    [x < a.width] and [y < a.height], and [b]'s pixel at [(x - a.width, y)]
    when [x >= a.width] and [y < b.height].  Read from the inputs: every
    pixel of [a] is in the output at its own position, and every pixel of
    [b] is in the output [a.width] columns to the right. *)
Theorem concatenate_pixels W s image1 image2 a b :
  heap s !! image1 = Some a ->
  heap s !! image2 = Some b ->
  raster_image a -> raster_image b ->
  exists out,
    yields (concatenate_images_horizontally image1 image2) W s out /\
    im_size out = (im_width a + im_width b, Z.max (im_height a) (im_height b)) /\
    (forall x y,
       0 <= x < im_width out -> 0 <= y < im_height out ->
       (x < im_width a -> y < im_height a -> pixel_at out x y = pixel_at a x y) /\
       (x >= im_width a -> y < im_height b ->
        pixel_at out x y = pixel_at b (x - im_width a) y)) /\
    (forall x y,
       0 <= x < im_width a -> 0 <= y < im_height a ->
       exists px, pixel_at a x y = Some px /\ pixel_at out x y = Some px) /\
    (forall x y,
       0 <= x < im_width b -> 0 <= y < im_height b ->
       exists px, pixel_at b x y = Some px /\
                  pixel_at out (im_width a + x) y = Some px).
Proof.
  intros H1 H2 [Ha Hma] [Hb Hmb].
  destruct (concatenated_spec (Image_convert W) a b Ha Hb)
    as (out & Hout & _ & Hmode & Hsize & Hpix).
  pose proof Ha as (Hwa & Hha & _). pose proof Hb as (Hwb & Hhb & _).
  assert (Wout : im_width out = im_width a + im_width b)
    by (unfold im_width at 1; by rewrite Hsize).
  assert (Tout : im_height out = Z.max (im_height a) (im_height b))
    by (unfold im_height at 1; by rewrite Hsize).
  assert (Hfirst : forall x y,
            0 <= x < im_width a -> 0 <= y < im_height a ->
            pixel_at out x y = pixel_at a x y).
  { intros x y Hx Hy. rewrite Hpix by lia.
    rewrite !paste_source_same_mode by congruence.
    unfold in_second_region, in_first_region.
    replace (im_width a <=? x) with false by (symmetry; lia).
    rewrite in_range_true by lia. cbn [andb].
    symmetry. by apply pixel_at_valid. }
  assert (Hsecond : forall x y,
            0 <= x < im_width b -> 0 <= y < im_height b ->
            pixel_at out (im_width a + x) y = pixel_at b x y).
  { intros x y Hx Hy. rewrite Hpix by lia.
    rewrite !paste_source_same_mode by congruence.
    unfold in_second_region.
    replace ((im_width a <=? im_width a + x)
             && (im_width a + x <? im_width a + im_width b)
             && (0 <=? y) && (y <? im_height b)) with true
      by (symmetry; repeat (apply andb_true_intro; split); lia).
    replace (im_width a + x - im_width a) with x by lia.
    symmetry. by apply pixel_at_valid. }
  exists out. split; [by eapply concatenate_yields|]. split; [done|].
  split; [|split].
  - intros x y Hx Hy. rewrite Wout in Hx. rewrite Tout in Hy. split.
    + intros Hxa Hya. apply Hfirst; lia.
    + intros Hxa Hyb.
      replace x with (im_width a + (x - im_width a)) at 1 by lia.
      apply Hsecond; lia.
  - intros x y Hx Hy. exists (raw_pixel a x y).
    split; [by apply pixel_at_valid|].
    rewrite Hfirst by done. by apply pixel_at_valid.
  - intros x y Hx Hy. exists (raw_pixel b x y).
    split; [by apply pixel_at_valid|].
    rewrite Hsecond by done. by apply pixel_at_valid.
Qed.

(** C10: the output is in mode RGB and has the size
    [(a.width + b.width, max(a.height, b.height))], and every position
    inside that size that lies in neither pasted region holds the black
    pixel (0, 0, 0). *)
Theorem concatenate_background_black W s image1 image2 a b :
  heap s !! image1 = Some a ->
  heap s !! image2 = Some b ->
  valid_image a -> valid_image b ->
  exists out,
    yields (concatenate_images_horizontally image1 image2) W s out /\
    im_mode out = "RGB" /\
    im_size out = (im_width a + im_width b, Z.max (im_height a) (im_height b)) /\
    forall x y,
      0 <= x < im_width a + im_width b ->
      0 <= y < Z.max (im_height a) (im_height b) ->
      in_first_region a x y = false ->
      in_second_region a b x y = false ->
      pixel_at out x y = Some [0; 0; 0].
Proof.
  intros H1 H2 Ha Hb.
  destruct (concatenated_spec (Image_convert W) a b Ha Hb)
    as (out & Hout & _ & Hmode & Hsize & Hpix).
  exists out. split; [by eapply concatenate_yields|]. split; [done|].
  split; [done|].
  intros x y Hx Hy E1 E2.
  rewrite Hpix, E1, E2; [done | |].
  - unfold im_width at 1. by rewrite Hsize.
  - unfold im_height at 1. by rewrite Hsize.
Qed.

(** C4, as amended: for [a] of size 100x50 and [b] of size 80x70 the output
    is 180x70, the positions no paste has written are the 100x20 rectangle
    below [a], and they are black. *)
Theorem concatenate_100x50_80x70 W s image1 image2 a b :
  heap s !! image1 = Some a ->
  heap s !! image2 = Some b ->
  valid_image a -> valid_image b ->
  im_size a = (100, 50) -> im_size b = (80, 70) ->
  exists out,
    yields (concatenate_images_horizontally image1 image2) W s out /\
    im_size out = (180, 70) /\
    gap_below_first a b out 100 20 /\
    forall x y, 0 <= x < 100 -> 50 <= y < 70 -> pixel_at out x y = Some black.
Proof.
  intros H1 H2 Ha Hb Hsa Hsb.
  destruct (concatenated_spec (Image_convert W) a b Ha Hb)
    as (out & Hout & _ & _ & Hsize & Hpix).
  unfold im_width, im_height in Hsize. rewrite Hsa, Hsb in Hsize.
  cbn [fst snd] in Hsize.
  replace (100 + 80) with 180 in Hsize by lia.
  replace (Z.max 50 70) with 70 in Hsize by lia.
  exists out. split; [by eapply concatenate_yields|]. split; [done|].
  assert (Hreg : forall x y, 0 <= x < 180 -> 0 <= y < 70 ->
            (in_first_region a x y = false /\ in_second_region a b x y = false
             <-> 0 <= x < 100 /\ 50 <= y < 50 + 20)).
  { intros x y Hx Hy. unfold in_first_region, in_second_region, im_width, im_height.
    rewrite Hsa, Hsb. cbn [fst snd].
    rewrite !andb_false_iff, !Z.leb_gt, !Z.ltb_ge. lia. }
  split.
  - intros x y. unfold im_width at 1, im_height at 1, im_height.
    rewrite Hsize, Hsa. cbn [fst snd]. apply Hreg.
  - intros x y Hx Hy.
    destruct (Hreg x y) as [_ [E1 E2]]; [lia | lia | lia |].
    rewrite Hpix by (unfold im_width, im_height; rewrite Hsize; cbn [fst snd]; lia).
    by rewrite E1, E2.
Qed.

(** C4, as stated, fails: with a white 100x50 and a white 80x70 image the
    unwritten positions are not the 80x20 rectangle below the first image
    (position (90, 60) is unwritten). *)
Lemma concatenate_gap_not_80x20 :
  ~ exists out,
      yields (concatenate_images_horizontally 0%nat 1%nat) friendly_world
        (mkState [] [solid 100 50 white; solid 80 70 white]) out /\
      im_size out = (180, 70) /\
      gap_below_first (solid 100 50 white) (solid 80 70 white) out 80 20.
Proof.
  intros (out & _ & Hsize & Hgap).
  destruct (Hgap 90 60) as [Hin _].
  - unfold im_width. rewrite Hsize. cbn [fst]. lia.
  - unfold im_height. rewrite Hsize. cbn [snd]. lia.
  - destruct Hin as [Hx _]; [split; reflexivity | lia].
Qed.

(** C5: the call is a function of the contents of the two images and of
    nothing else: it logs no call, leaves every object of the heap as it
    was, and two calls on images with the same contents allocate the same
    image (or raise the same exception). *)
Theorem concatenate_deterministic_pure W W' s s' image1 image2 image1' image2' a b :
  convert_pixel W = convert_pixel W' ->
  heap s !! image1 = Some a ->
  heap s !! image2 = Some b ->
  heap s' !! image1' = Some a ->
  heap s' !! image2' = Some b ->
  exists o,
    concatenate_images_horizontally image1 image2 W s = allocates_only s o /\
    concatenate_images_horizontally image1' image2' W' s' = allocates_only s' o.
Proof.
  intros Hcv H1 H2 H1' H2'. exists (concatenated (Image_convert W) a b).
  rewrite (concatenate_run W s image1 image2 a b H1 H2).
  rewrite (concatenate_run W' s' image1' image2' a b H1' H2').
  unfold Image_convert. by rewrite Hcv.
Qed.

Lemma concatenate_size_witness :
  exists out,
    yields (concatenate_images_horizontally 0%nat 1%nat) friendly_world
      (two_images (solid 2 1 white) (solid 1 2 black)) out /\
    im_width out = 3 /\ im_height out = 2.
Proof.
  apply (concatenate_size friendly_world
           (two_images (solid 2 1 white) (solid 1 2 black)) 0%nat 1%nat
           (solid 2 1 white) (solid 1 2 black));
    [reflexivity | reflexivity | apply solid_valid; lia | apply solid_valid; lia].
Defined.

Lemma concatenate_pixels_witness :
  exists out,
    yields (concatenate_images_horizontally 0%nat 1%nat) friendly_world
      (two_images (solid 2 1 white) (solid 1 2 black)) out /\
    im_size out = (3, 2) /\
    (forall x y,
       0 <= x < im_width out -> 0 <= y < im_height out ->
       (x < 2 -> y < 1 -> pixel_at out x y = pixel_at (solid 2 1 white) x y) /\
       (x >= 2 -> y < 2 ->
        pixel_at out x y = pixel_at (solid 1 2 black) (x - 2) y)) /\
    (forall x y,
       0 <= x < 2 -> 0 <= y < 1 ->
       exists px, pixel_at (solid 2 1 white) x y = Some px /\
                  pixel_at out x y = Some px) /\
    (forall x y,
       0 <= x < 1 -> 0 <= y < 2 ->
       exists px, pixel_at (solid 1 2 black) x y = Some px /\
                  pixel_at out (2 + x) y = Some px).
Proof.
  apply (concatenate_pixels friendly_world
           (two_images (solid 2 1 white) (solid 1 2 black)) 0%nat 1%nat
           (solid 2 1 white) (solid 1 2 black));
    [reflexivity | reflexivity
     | apply solid_raster_image; lia | apply solid_raster_image; lia].
Defined.

Lemma concatenate_background_black_witness :
  exists out,
    yields (concatenate_images_horizontally 0%nat 1%nat) friendly_world
      (two_images (solid 2 1 white) (solid 1 2 white)) out /\
    im_mode out = "RGB" /\
    im_size out = (3, 2) /\
    forall x y,
      0 <= x < 3 -> 0 <= y < 2 ->
      in_first_region (solid 2 1 white) x y = false ->
      in_second_region (solid 2 1 white) (solid 1 2 white) x y = false ->
      pixel_at out x y = Some [0; 0; 0].
Proof.
  apply (concatenate_background_black friendly_world
           (two_images (solid 2 1 white) (solid 1 2 white)) 0%nat 1%nat
           (solid 2 1 white) (solid 1 2 white));
    [reflexivity | reflexivity | apply solid_valid; lia | apply solid_valid; lia].
Defined.

Lemma concatenate_100x50_80x70_witness :
  exists out,
    yields (concatenate_images_horizontally 0%nat 1%nat) friendly_world
      (two_images (solid 100 50 white) (solid 80 70 white)) out /\
    im_size out = (180, 70) /\
    gap_below_first (solid 100 50 white) (solid 80 70 white) out 100 20 /\
    forall x y, 0 <= x < 100 -> 50 <= y < 70 -> pixel_at out x y = Some black.
Proof.
  apply (concatenate_100x50_80x70 friendly_world
           (two_images (solid 100 50 white) (solid 80 70 white)) 0%nat 1%nat
           (solid 100 50 white) (solid 80 70 white));
    [reflexivity | reflexivity | apply solid_valid; lia | apply solid_valid; lia
     | reflexivity | reflexivity].
Defined.

Lemma concatenate_deterministic_pure_witness :
  exists o,
    concatenate_images_horizontally 0%nat 1%nat friendly_world
      (two_images (solid 2 1 white) (solid 1 2 black))
      = allocates_only (two_images (solid 2 1 white) (solid 1 2 black)) o /\
    concatenate_images_horizontally 1%nat 0%nat friendly_world
      (two_images (solid 1 2 black) (solid 2 1 white))
      = allocates_only (two_images (solid 1 2 black) (solid 2 1 white)) o.
Proof.
  apply (concatenate_deterministic_pure friendly_world friendly_world
           (two_images (solid 2 1 white) (solid 1 2 black))
           (two_images (solid 1 2 black) (solid 2 1 white))
           0%nat 1%nat 1%nat 0%nat (solid 2 1 white) (solid 1 2 black));
    reflexivity.
Defined.

(** ** Running the script *)

(** Unfolds the control-flow combinators and the calls of the script, leaving
    the oracle's answers and the heap lookups in place. *)
Ltac run :=
  cbv beta iota zeta delta
    [main def try_finally try_except bind ret raise return_ break_ do_call
     find_element get_attribute str_add print download_image raise_for_status
     Image_open Image_size Image_new Image_paste alloc store deref
     display_image plt is_NoSuchElementException log heap].

(** Case analysis on the first undecided answer. *)
Ltac case_head :=
  match goal with
  | |- context [match ?x with _ => _ end] =>
      lazymatch x with
      | context [match _ with _ => _ end] => fail
      | _ => destruct x eqn:?
      end
  end.

Ltac run_cases := run; repeat (case_head; run).

(** The compositor logs nothing, whatever its arguments. *)
Lemma concatenate_log W s image1 image2 o s' :
  concatenate_images_horizontally image1 image2 W s = (o, s') ->
  log s' = log s.
Proof.
  unfold concatenate_images_horizontally. intros H. destruct s as [l h].
  revert H. run_cases; intros H; inversion H; reflexivity.
Qed.

(** The compositor called on the two images just downloaded. *)
Lemma concatenate_fresh W l h im1 im2 :
  concatenate_images_horizontally (length h) (length (h ++ [im1])) W
    (mkState l ((h ++ [im1]) ++ [im2])) =
  match concatenated (Image_convert W) im1 im2 with
  | Ok im => (Normal (length ((h ++ [im1]) ++ [im2])),
              mkState l (((h ++ [im1]) ++ [im2]) ++ [im]))
  | Err e => (Raise e, mkState l ((h ++ [im1]) ++ [im2]))
  end.
Proof.
  apply (concatenate_run W (mkState l ((h ++ [im1]) ++ [im2]))); cbn [heap].
  - apply lookup_snoc_old, lookup_snoc_new.
  - apply lookup_snoc_new.
Qed.

(** Symbolic execution of [main]: one goal per path. *)
Ltac run_main :=
  run;
  repeat (first [ rewrite concatenate_fresh
                | rewrite lookup_snoc_new
                | case_head ]; run).

(** [main] hands back [None] or [False], or raises. *)
Lemma main_outcome args g W s o s' :
  main args g W s = (o, s') ->
  o = Normal PyNone \/ o = Normal (PyBool false) \/ exists e, o = Raise e.
Proof.
  destruct s as [l h]. run_main; intros H; inversion H; eauto.
Qed.

(** With fuel for one iteration the loop is over: it is one call of [main]. *)
Lemma script_is_one_call fuel args W s o s' :
  main args (gene args) W s = (o, s') ->
  script (S fuel) args W s =
    Some (match o with Raise e => Raise e | _ => Normal tt end, s').
Proof.
  intros Hmain. unfold script. cbn [while_True]. unfold bind at 1.
  rewrite Hmain.
  destruct (main_outcome _ _ _ _ _ _ Hmain) as [-> | [-> | [e ->]]]; reflexivity.
Qed.

(** With fuel for one iteration or more the script terminates. *)
Lemma script_terminates fuel args W s :
  exists o s', script (S fuel) args W s = Some (o, s').
Proof.
  destruct (main args (gene args) W s) as [o1 s1] eqn:Hmain.
  rewrite (script_is_one_call fuel args W s o1 s1 Hmain). eauto.
Qed.

(** One goal per path of a call of [main] from the initial state.  The
    statement to prove is kept folded while the paths are explored. *)
Ltac main_paths Hmain :=
  match type of Hmain with
  | main _ _ _ initial_state = (?o, ?s) =>
      let Q := fresh "Q" in
      pattern o, s;
      match goal with |- ?P o s => set (Q := P) end;
      revert Hmain; unfold initial_state; run_main;
      intros Hmain; injection Hmain as ? ?; subst o s; subst Q; cbv beta
  end.

(** The same for a run of the script, which is one call of [main]. *)
Ltac script_paths Hrun :=
  let o1 := fresh "o1" in
  let s1 := fresh "s1" in
  let Hmain := fresh "Hmain" in
  match type of Hrun with
  | script (S ?fuel) ?args ?W initial_state = _ =>
      destruct (main args (gene args) W initial_state) as [o1 s1] eqn:Hmain;
      rewrite (script_is_one_call fuel args W initial_state o1 s1 Hmain) in Hrun;
      injection Hrun as ? ?; subst;
      main_paths Hmain
  end.

Lemma In_existsb (p : event -> bool) ev (t : list event) :
  In ev t -> p ev = true -> existsb p t = true.
Proof. intros Hin Hp. apply existsb_exists. eauto. Qed.

(** Closes the paths whose log has no event of the kind [p], given that an
    event of that kind is in the log. *)
Ltac skip_unless p Hin :=
  let Hq := fresh "Hq" in
  pose proof (In_existsb p _ _ Hin eq_refl) as Hq;
  cbn in Hq; try discriminate Hq; clear Hq.

(** Decides a membership hypothesis in an explicit list of events. *)
Ltac in_cases H :=
  cbn [trace log rev app In] in H;
  repeat (destruct H as [H | H]);
  try contradiction; try discriminate H;
  try (inversion H; subst; clear H).

(** C8: on every path of a run in which the browser was started, whatever
    the outcome, [driver.quit()] is called exactly once and it is the last
    call of the run; the browser is started once. *)
Theorem browser_released_once fuel args W :
  exists o s',
    script (S fuel) args W initial_state = Some (o, s') /\
    match webdriver_Chrome W [] with
    | Ok d =>
        exists rq earlier,
          log s' = EvQuit d rq :: earlier /\
          count is_Quit earlier = 0%nat /\
          count is_Chrome (trace s') = 1%nat /\
          head (trace s') = Some (EvChrome (Ok d))
    | Err e => trace s' = [EvChrome (Err e)] /\ o = Raise e
    end.
Proof.
  destruct (script_terminates fuel args W initial_state) as (o & s' & Hrun).
  exists o, s'. split; [done|].
  script_paths Hrun; cbn [log]; try (split; reflexivity);
    eexists _, _; (split; [reflexivity|]); repeat split; reflexivity.
Qed.

(** C6: the script terminates, and when the lookup of the result element
    has raised NoSuchElementException, the run has printed the notice, has
    made no HTTP request (so [download_image] was not called), is over after
    this one tick, and ends normally once [driver.quit()] has returned. *)
Theorem no_hits_stops_the_loop fuel args W :
  exists o s',
    script (S fuel) args W initial_state = Some (o, s') /\
    forall d,
      In (EvFindElement d By_CLASS_NAME "graph-link" (Err NoSuchElementException))
         (trace s') ->
      In (EvPrint ("No hits for " ++ gene args ++ newline)%string) (trace s') /\
      count is_RequestsGet (trace s') = 0%nat /\
      ticks (trace s') = 1%nat /\
      exists rq earlier,
        log s' = EvQuit d rq :: earlier /\ o = exit_of rq (Normal tt).
Proof.
  destruct (script_terminates fuel args W initial_state) as (o & s' & Hrun).
  exists o, s'. split; [done|]. intros d.
  script_paths Hrun; intros Hin; skip_unless is_no_hit Hin; in_cases Hin.
  all: split; [cbn; tauto|]; split; [reflexivity|]; split; [reflexivity|];
    eexists _, _; split; reflexivity.
Qed.

Lemma no_hits_stops_the_loop_witness :
  script 3 sample_args no_hits_world initial_state
    = Some (Normal tt, no_hits_final) /\
  In (EvFindElement 0%nat By_CLASS_NAME "graph-link" (Err NoSuchElementException))
     (trace no_hits_final) /\
  In (EvPrint ("No hits for Os01g0100100" ++ newline)%string) (trace no_hits_final) /\
  count is_RequestsGet (trace no_hits_final) = 0%nat /\
  ticks (trace no_hits_final) = 1%nat /\
  exists rq earlier,
    log no_hits_final = EvQuit 0%nat rq :: earlier /\
    Normal tt = exit_of rq (Normal tt).
Proof.
  assert (Hrun : script 3 sample_args no_hits_world initial_state
                 = Some (Normal tt, no_hits_final)) by (vm_compute; reflexivity).
  assert (Hin : In (EvFindElement 0%nat By_CLASS_NAME "graph-link"
                      (Err NoSuchElementException)) (trace no_hits_final))
    by (vm_compute; tauto).
  split; [exact Hrun|]. split; [exact Hin|].
  destruct (no_hits_stops_the_loop 2 sample_args no_hits_world)
    as (o & s' & Hrun' & Hspec).
  rewrite Hrun in Hrun'. inversion Hrun'; subst o s'.
  exact (Hspec 0%nat Hin).
Defined.

(** ** The image fetcher *)

(** After a download that fails, the only call left in the run is
    [driver.quit()]; nothing is displayed and the error ends the run. *)
Lemma fetch_failure_aborts fuel args W o s' url r e :
  script (S fuel) args W initial_state = Some (o, s') ->
  In (EvRequestsGet url r) (trace s') ->
  fails_with W r e ->
  exists d rq earlier,
    log s' = EvQuit d rq :: EvRequestsGet url r :: earlier /\
    o = exit_of rq (Raise e) /\
    count is_Plt (trace s') = 0%nat.
Proof.
  intros Hrun.
  script_paths Hrun; intros Hin Hf; skip_unless is_RequestsGet Hin; in_cases Hin;
    unfold fails_with, client_or_server_error in Hf;
    try (destruct Hf as [[Hb ->] | (Hb & Hd & ->)]); try congruence; subst;
    eexists _, _, _; repeat split; reflexivity.
Qed.

Lemma client_or_server_error_iff c :
  client_or_server_error c = true <-> 400 <= c < 600.
Proof.
  unfold client_or_server_error. rewrite andb_true_iff, Z.leb_le, Z.ltb_lt. tauto.
Qed.

(** What one call of [download_image] does, by the answer to its request. *)
Lemma download_image_run url W s :
  download_image url W s =
    let r := requests_get W (log s) url in
    let s1 := mkState (EvRequestsGet url r :: log s) (heap s) in
    match r with
    | Err e => (Raise e, s1)
    | Ok resp =>
        if client_or_server_error (status_code resp)
        then (Raise (HTTPError (status_code resp)), s1)
        else match Image_decode W (content resp) with
             | None => (Raise UnidentifiedImageError, s1)
             | Some im => (Normal (length (heap s)),
                           mkState (log s1) (heap s ++ [im]))
             end
    end.
Proof.
  destruct s as [l h]. unfold client_or_server_error. run_cases; reflexivity.
Qed.

(** C7, as amended: given the response to its request, [download_image]
    raises HTTPError exactly when the status is a client or server error
    (400 to 599); for another status and a body that does not decode it
    raises the decode error; in both cases the one request is all it has
    done.  In a run, a download that fails is followed by [driver.quit()]
    and nothing else, nothing is displayed, and the error ends the run. *)
Theorem download_image_failure url W s resp :
  requests_get W (log s) url = Ok resp ->
  let s1 := mkState (EvRequestsGet url (Ok resp) :: log s) (heap s) in
  ((exists c s', download_image url W s = (Raise (HTTPError c), s'))
   <-> 400 <= status_code resp < 600) /\
  (400 <= status_code resp < 600 ->
   download_image url W s = (Raise (HTTPError (status_code resp)), s1)) /\
  (~ 400 <= status_code resp < 600 ->
   Image_decode W (content resp) = None ->
   download_image url W s = (Raise UnidentifiedImageError, s1)) /\
  (forall fuel args o s' url' r e,
     script (S fuel) args W initial_state = Some (o, s') ->
     In (EvRequestsGet url' r) (trace s') ->
     fails_with W r e ->
     exists d rq earlier,
       log s' = EvQuit d rq :: EvRequestsGet url' r :: earlier /\
       o = exit_of rq (Raise e) /\
       count is_Plt (trace s') = 0%nat).
Proof.
  intros Hresp s1. rewrite download_image_run. cbv zeta. rewrite Hresp.
  rewrite <- client_or_server_error_iff.
  destruct (client_or_server_error (status_code resp)) eqn:Hbad.
  - split; [split; [done | intros _; eauto]|].
    split; [done|]. split; [intros []; done|].
    intros. by eapply fetch_failure_aborts.
  - split.
    { split; [|done]. intros (c & s' & H).
      destruct (Image_decode W (content resp)); discriminate. }
    split; [done|]. split.
    { intros _ ->. done. }
    intros. by eapply fetch_failure_aborts.
Qed.

Lemma download_image_failure_witness :
  ((exists c s',
      download_image "u" (world_with_status 404) initial_state
        = (Raise (HTTPError c), s'))
   <-> 400 <= 404 < 600) /\
  (400 <= 404 < 600 ->
   download_image "u" (world_with_status 404) initial_state
     = (Raise (HTTPError 404),
        mkState [EvRequestsGet "u" (Ok (mkResponse 404 []))] [])) /\
  (~ 400 <= 404 < 600 ->
   Image_decode (world_with_status 404) [] = None ->
   download_image "u" (world_with_status 404) initial_state
     = (Raise UnidentifiedImageError,
        mkState [EvRequestsGet "u" (Ok (mkResponse 404 []))] [])) /\
  (forall fuel args o s' url' r e,
     script (S fuel) args (world_with_status 404) initial_state = Some (o, s') ->
     In (EvRequestsGet url' r) (trace s') ->
     fails_with (world_with_status 404) r e ->
     exists d rq earlier,
       log s' = EvQuit d rq :: EvRequestsGet url' r :: earlier /\
       o = exit_of rq (Raise e) /\
       count is_Plt (trace s') = 0%nat).
Proof.
  apply (download_image_failure "u" (world_with_status 404) initial_state
           (mkResponse 404 [])).
  reflexivity.
Defined.

(** C7, as stated, fails: a response with status 300, which is not a
    successful (2xx) status, and a body that decodes makes [download_image]
    return an image; no fetch error is raised. *)
Lemma status_300_is_no_fetch_error :
  ~ (forall url W s resp,
       requests_get W (log s) url = Ok resp ->
       ((exists c s', download_image url W s = (Raise (HTTPError c), s'))
        <-> successful_status (status_code resp) = false)).
Proof.
  intros H.
  destruct (H "u" (world_with_status 300) initial_state (mkResponse 300 [])
              eq_refl) as [_ Hraise].
  destruct Hraise as (c & s' & Hrun); [reflexivity|].
  vm_compute in Hrun. discriminate Hrun.
Qed.

(** ** The parameter of [main] *)

(** C9: [main] does not depend on its parameter, and in a run the text
    typed into the search box and the text of the notice are built from
    [args.gene]. *)
Theorem main_ignores_gene_parameter args g1 g2 W :
  (forall s, main args g1 W s = main args g2 W s) /\
  forall o s',
    main args g1 W initial_state = (o, s') ->
    (forall el keys r, In (EvSendKeys el keys r) (trace s') -> keys = gene args) /\
    (forall text, In (EvPrint text) (trace s') ->
       text = ("No hits for " ++ gene args ++ newline)%string).
Proof.
  split; [reflexivity|].
  intros o s' Hmain. main_paths Hmain.
  all: split; [intros el keys r Hin | intros text Hin]; in_cases Hin; reflexivity.
Qed.

(** Two calls with different parameters and the same [args] are the same run. *)
Example main_same_run_for_two_parameters :
  main sample_args "Os02g0200200" no_hits_world initial_state
    = (Normal (PyBool false), no_hits_final) /\
  main sample_args "Os03g0300300" no_hits_world initial_state
    = (Normal (PyBool false), no_hits_final).
Proof.
  split; vm_compute; reflexivity.
Qed.

(** ** The loop after a hit *)

(** C1 (the code departs from it): in a world where the search finds the
    result element and both downloads succeed, the run fetches both images,
    displays the composite once, and is then over: whatever the fuel, the
    loop makes one tick and the process ends normally. *)
Theorem found_run_ends_after_one_tick fuel :
  script (S fuel) sample_args friendly_world initial_state
    = Some (Normal tt, found_final) /\
  trace found_final = found_trace /\
  ticks found_trace = 1%nat /\
  count is_RequestsGet found_trace = 2%nat /\
  count is_show found_trace = 1%nat.
Proof.
  split.
  - apply (script_is_one_call fuel sample_args friendly_world initial_state
             (Normal PyNone) found_final).
    vm_compute. reflexivity.
  - repeat split; reflexivity.
Qed.

(** * Further properties *)

Ltac units := repeat match goal with u : unit |- _ => destruct u end.

(** Finds an event in an explicit list. *)
Ltac in_list :=
  cbn [trace log rev app In]; repeat first [left; reflexivity | right].

(** ** [display_image] *)

(** X1: a call of [display_image] that returns has made the four pyplot
    calls, in order, with the contents of the image at the time of the
    call; a call that raises has stopped at the pyplot call that raised,
    after fewer than four successful ones.  The heap is as it was. *)
Theorem display_image_calls W s image im o s' :
  heap s !! image = Some im ->
  display_image image W s = (o, s') ->
  heap s' = heap s /\
  match o with
  | Normal _ =>
      log s' = EvPlt plt_show (Ok tt) :: EvPlt (plt_axis "off") (Ok tt)
               :: EvPlt (plt_imshow im) (Ok tt)
               :: EvPlt (plt_figure (25, 8)) (Ok tt) :: log s
  | Raise e =>
      exists c done,
        log s' = EvPlt c (Err e) :: done ++ log s /\
        Forall (fun ev => exists c', ev = EvPlt c' (Ok tt)) done /\
        (length done < 4)%nat
  | _ => False
  end.
Proof.
  intros Him Hrun. destruct s as [l h]. cbn [heap log] in *.
  pattern o, s'. match goal with |- ?P o s' => set (Q := P) end.
  revert Hrun. run; repeat (first [rewrite Him | case_head]; run).
  all: intros H; injection H as ? ?; subst o s'; subst Q; cbv beta;
    cbn [heap log]; split; [reflexivity|].
  all: units.
  all: try reflexivity.
  - eexists _, [_; _; _]. split; [reflexivity|]. split; [|cbn; lia].
    repeat constructor; eauto.
  - eexists _, [_; _]. split; [reflexivity|]. split; [|cbn; lia].
    repeat constructor; eauto.
  - eexists _, [_]. split; [reflexivity|]. split; [|cbn; lia].
    repeat constructor; eauto.
  - eexists _, []. split; [reflexivity|]. split; [|cbn; lia].
    constructor.
Qed.

Lemma display_image_calls_witness :
  heap (mkState
          [EvPlt plt_show (Ok tt); EvPlt (plt_axis "off") (Ok tt);
           EvPlt (plt_imshow (solid 2 1 white)) (Ok tt);
           EvPlt (plt_figure (25, 8)) (Ok tt)]
          [solid 2 1 white; solid 1 2 black])
    = heap (two_images (solid 2 1 white) (solid 1 2 black)) /\
  log (mkState
         [EvPlt plt_show (Ok tt); EvPlt (plt_axis "off") (Ok tt);
          EvPlt (plt_imshow (solid 2 1 white)) (Ok tt);
          EvPlt (plt_figure (25, 8)) (Ok tt)]
         [solid 2 1 white; solid 1 2 black])
    = EvPlt plt_show (Ok tt) :: EvPlt (plt_axis "off") (Ok tt)
      :: EvPlt (plt_imshow (solid 2 1 white)) (Ok tt)
      :: EvPlt (plt_figure (25, 8)) (Ok tt)
      :: log (two_images (solid 2 1 white) (solid 1 2 black)).
Proof.
  apply (display_image_calls friendly_world
           (two_images (solid 2 1 white) (solid 1 2 black)) 0%nat
           (solid 2 1 white) (Normal tt)
           (mkState
              [EvPlt plt_show (Ok tt); EvPlt (plt_axis "off") (Ok tt);
               EvPlt (plt_imshow (solid 2 1 white)) (Ok tt);
               EvPlt (plt_figure (25, 8)) (Ok tt)]
              [solid 2 1 white; solid 1 2 black]));
    reflexivity.
Defined.

(** ** The paths of [main] *)

(** X2: when [main] returns [None] the call went through as [hit_run]
    says: the search was made, both attributes were read, the two images
    were requested (developmental chart first) and decoded, and the one
    image shown is their concatenation. *)
Theorem main_returns_None_after_display args g W s' :
  main args g W initial_state = (Normal PyNone, s') ->
  hit_run args W s'.
Proof.
  intros Hmain. remember (Normal PyNone) as o eqn:Ho. revert Ho.
  main_paths Hmain; intros Ho; try discriminate Ho.
  units. unfold hit_run. eexists _, _, _, _, _, _, _, _, _, _, _.
  split; [reflexivity|]. repeat split; eassumption || reflexivity.
Qed.

Lemma main_returns_None_after_display_witness :
  hit_run sample_args friendly_world found_final.
Proof.
  apply (main_returns_None_after_display sample_args "Os02g0200200"
           friendly_world found_final).
  vm_compute. reflexivity.
Defined.

(** X3: a run prints something only when the lookup of the result element
    has raised NoSuchElementException. *)
Theorem notice_only_when_no_hit fuel args W o s' text :
  script (S fuel) args W initial_state = Some (o, s') ->
  In (EvPrint text) (trace s') ->
  exists d,
    In (EvFindElement d By_CLASS_NAME "graph-link" (Err NoSuchElementException))
       (trace s').
Proof.
  intros Hrun.
  script_paths Hrun; intros Hin; skip_unless is_Print Hin.
  all: eexists; cbn; tauto.
Qed.

Lemma notice_only_when_no_hit_witness :
  exists d,
    In (EvFindElement d By_CLASS_NAME "graph-link" (Err NoSuchElementException))
       (trace no_hits_final).
Proof.
  apply (notice_only_when_no_hit 2 sample_args no_hits_world (Normal tt)
           no_hits_final ("No hits for Os01g0100100" ++ newline)%string).
  - vm_compute. reflexivity.
  - vm_compute. tauto.
Defined.

(** X4: a lookup that fails and is not the no-hit case (the search box or
    the button is missing, whatever the exception, or the result lookup
    raises something other than NoSuchElementException) ends the run with
    that exception: [driver.quit()] is the only call after it, nothing is
    printed and nothing is requested. *)
Theorem other_lookup_failure_is_fatal fuel args W o s' d by_ value e :
  script (S fuel) args W initial_state = Some (o, s') ->
  In (EvFindElement d by_ value (Err e)) (trace s') ->
  is_no_hit (EvFindElement d by_ value (Err e)) = false ->
  exists rq earlier,
    log s' = EvQuit d rq :: EvFindElement d by_ value (Err e) :: earlier /\
    o = exit_of rq (Raise e) /\
    count is_Print (trace s') = 0%nat /\
    count is_RequestsGet (trace s') = 0%nat.
Proof.
  intros Hrun.
  script_paths Hrun; intros Hin Hno; skip_unless is_FindElement Hin;
    in_cases Hin; try discriminate Hno.
  all: eexists _, _; repeat split; reflexivity.
Qed.

Lemma other_lookup_failure_is_fatal_witness :
  exists rq earlier,
    log no_search_box_final
      = EvQuit 0%nat rq
        :: EvFindElement 0%nat By_NAME "keyword" (Err NoSuchElementException)
        :: earlier /\
    Raise NoSuchElementException = exit_of rq (Raise NoSuchElementException) /\
    count is_Print (trace no_search_box_final) = 0%nat /\
    count is_RequestsGet (trace no_search_box_final) = 0%nat.
Proof.
  apply (other_lookup_failure_is_fatal 2 sample_args no_search_box_world
           (Raise NoSuchElementException) no_search_box_final
           0%nat By_NAME "keyword" NoSuchElementException).
  - vm_compute. reflexivity.
  - vm_compute. tauto.
  - reflexivity.
Defined.

(** X5: when the result element lacks one of the two attributes
    ([get_attribute] returns [None]), the run ends with the TypeError of
    the string concatenation: [driver.quit()] is the only call after it and
    no HTTP request is made. *)
Theorem missing_attribute_is_TypeError fuel args W o s' el name :
  script (S fuel) args W initial_state = Some (o, s') ->
  In (EvGetAttribute el name (Ok None)) (trace s') ->
  exists d rq earlier,
    log s' = EvQuit d rq :: EvGetAttribute el name (Ok None) :: earlier /\
    o = exit_of rq
          (Raise (TypeError "can only concatenate str (not NoneType) to str")) /\
    count is_RequestsGet (trace s') = 0%nat.
Proof.
  intros Hrun.
  script_paths Hrun; intros Hin; skip_unless is_GetAttribute Hin; in_cases Hin.
  all: eexists _, _, _; repeat split; reflexivity.
Qed.

Lemma missing_attribute_is_TypeError_witness :
  exists d rq earlier,
    log no_attribute_final
      = EvQuit d rq :: EvGetAttribute 3%nat "dev_barimg" (Ok None) :: earlier /\
    Raise (TypeError "can only concatenate str (not NoneType) to str")
      = exit_of rq
          (Raise (TypeError "can only concatenate str (not NoneType) to str")) /\
    count is_RequestsGet (trace no_attribute_final) = 0%nat.
Proof.
  apply (missing_attribute_is_TypeError 2 sample_args no_attribute_world
           (Raise (TypeError "can only concatenate str (not NoneType) to str"))
           no_attribute_final 3%nat "dev_barimg").
  - vm_compute. reflexivity.
  - vm_compute. tauto.
Defined.

(** X6: whatever the world does, a run makes at most two HTTP requests,
    calls [plt.show()] at most once, prints at most once, and never both
    prints the notice and requests or displays an image. *)
Theorem run_call_bounds fuel args W :
  exists o s',
    script (S fuel) args W initial_state = Some (o, s') /\
    (count is_RequestsGet (trace s') <= 2)%nat /\
    (count is_show (trace s') <= 1)%nat /\
    (count is_Print (trace s') <= 1)%nat /\
    (count is_Print (trace s') = 0%nat \/
     (count is_RequestsGet (trace s') + count is_Plt (trace s') = 0)%nat).
Proof.
  destruct (script_terminates fuel args W initial_state) as (o & s' & Hrun).
  exists o, s'. split; [done|].
  script_paths Hrun.
  all: cbv [count trace log rev app List.filter is_RequestsGet is_show is_Print
            is_Plt length Nat.add]; units; lia.
Qed.

(** X7: the process ends normally exactly when [driver.quit()] returned
    and, before it, either [plt.show()] returned or the result lookup
    found nothing; and when [driver.quit()] raises, the run ends with its
    exception, whatever happened before. *)
Theorem normal_exit_iff fuel args W :
  exists o s',
    script (S fuel) args W initial_state = Some (o, s') /\
    (o = Normal tt <->
     exists d earlier,
       log s' = EvQuit d (Ok tt) :: earlier /\
       (existsb is_shown earlier = true \/ existsb is_no_hit earlier = true)) /\
    (forall d e earlier, log s' = EvQuit d (Err e) :: earlier -> o = Raise e).
Proof.
  destruct (script_terminates fuel args W initial_state) as (o & s' & Hrun).
  exists o, s'. split; [done|].
  script_paths Hrun; units; cbn [log].
  all: split; [split|].
  all: try (intros Ho;
            first [ discriminate Ho
                  | eexists _, _; split; [reflexivity|]; cbn;
                    first [left; reflexivity | right; reflexivity] ]).
  all: try (intros (d' & earlier & Hlog & Hor);
            first [ discriminate Hlog
                  | injection Hlog as ? ?; subst; cbn in Hor;
                    repeat match type of Hor with
                           | context [match ?x with _ => _ end] =>
                               destruct x; cbn in Hor
                           end;
                    first [ reflexivity | destruct Hor; discriminate ] ]).
  all: intros d' e' earlier Hlog;
    first [ discriminate Hlog | injection Hlog as ? ? ?; subst; reflexivity ].
Qed.

(** X8: in every run the browser is sent to the RiceXPro address only; the
    gene is typed into the element found by the name [keyword]; the click
    goes to the element found by the XPath of the submit button; attributes
    are read from the element found by the class [graph-link], and only
    [dev_barimg] and [tissue_barimg]; every HTTP request goes to the
    RiceXPro address followed by an attribute value that was read. *)
Theorem calls_use_what_was_found fuel args W :
  exists o s',
    script (S fuel) args W initial_state = Some (o, s') /\
    (forall d url r, In (EvGet d url r) (trace s') -> url = RXP_base) /\
    (forall el keys r,
       In (EvSendKeys el keys r) (trace s') ->
       exists d, In (EvFindElement d By_NAME "keyword" (Ok el)) (trace s')) /\
    (forall el r,
       In (EvClick el r) (trace s') ->
       exists d,
         In (EvFindElement d By_XPATH
               "//input[@type='submit' and @value='Search']" (Ok el))
            (trace s')) /\
    (forall el name r,
       In (EvGetAttribute el name r) (trace s') ->
       (name = "dev_barimg" \/ name = "tissue_barimg") /\
       exists d,
         In (EvFindElement d By_CLASS_NAME "graph-link" (Ok el)) (trace s')) /\
    (forall url r,
       In (EvRequestsGet url r) (trace s') ->
       exists el name v,
         In (EvGetAttribute el name (Ok (Some v))) (trace s') /\
         url = (RXP_base ++ v)%string).
Proof.
  destruct (script_terminates fuel args W initial_state) as (o & s' & Hrun).
  exists o, s'. split; [done|].
  script_paths Hrun.
  all: split; [|split; [|split; [|split]]].
  all: try (intros ? ? ? Hin; skip_unless is_Get Hin; in_cases Hin;
            reflexivity).
  all: try (intros ? ? ? Hin; skip_unless is_SendKeys Hin; in_cases Hin;
            eexists; in_list).
  all: try (intros ? ? Hin; skip_unless is_Click Hin; in_cases Hin;
            eexists; in_list).
  all: try (intros ? ? ? Hin; skip_unless is_GetAttribute Hin; in_cases Hin;
            (split; [tauto | eexists; in_list])).
  all: intros ? ? Hin; skip_unless is_RequestsGet Hin; in_cases Hin;
    eexists _, _, _; (split; [|reflexivity]); in_list.
Qed.

(** ** [download_image] and the heap *)

(** X12: whatever the answer, a call of [download_image] makes exactly one
    HTTP request and leaves every image of the heap where it was.  When it
    returns, its result is a reference that did not exist before, holding
    the decoded body of the response; when it raises, the heap is
    unchanged. *)
Theorem download_image_frame url W s :
  let '(o, s') := download_image url W s in
  (forall r im, heap s !! r = Some im -> heap s' !! r = Some im) /\
  count is_RequestsGet (log s') = S (count is_RequestsGet (log s)) /\
  match o with
  | Normal r =>
      heap s !! r = None /\
      exists resp,
        requests_get W (log s) url = Ok resp /\
        heap s' !! r = Image_decode W (content resp) /\
        length (heap s') = S (length (heap s))
  | Raise _ => heap s' = heap s
  | _ => False
  end.
Proof.
  rewrite download_image_run. cbv zeta.
  destruct (requests_get W (log s) url) as [resp|e] eqn:Hreq.
  2: { cbn [heap log]. repeat split; done. }
  destruct (client_or_server_error (status_code resp)).
  { cbn [heap log]. repeat split; done. }
  destruct (Image_decode W (content resp)) as [im|] eqn:Hdec.
  2: { cbn [heap log]. repeat split; done. }
  cbn [heap log]. split; [|split; [done|split]].
  - intros r im' Hr. by apply lookup_snoc_old.
  - apply lookup_ge_None_2. lia.
  - exists resp. split; [done|]. split.
    + rewrite Hdec. apply lookup_snoc_new.
    + rewrite length_app. cbn. lia.
Qed.

(** ** More on the compositor *)

(** Reading an RGBA image as RGB drops the fourth band. *)
Lemma raw_pixel_reinterpret im x y :
  im_mode im = "RGBA" ->
  raw_pixel (reinterpret_as_RGB im) x y = take 3 (raw_pixel im x y).
Proof.
  intros Hm. unfold raw_pixel, reinterpret_as_RGB. cbn [im_rows].
  rewrite Hm. cbn [String.eqb Ascii.eqb Bool.eqb].
  rewrite list_lookup_fmap.
  destruct (im_rows im !! Z.to_nat y) as [row|]; [|reflexivity]. cbn.
  rewrite list_lookup_fmap.
  destruct (row !! Z.to_nat x) as [px|]; reflexivity.
Qed.

(** X9: for two valid RGBA inputs every pixel of either input appears in
    the output, at its place, without its alpha band. *)
Theorem concatenate_drops_alpha W s image1 image2 a b :
  heap s !! image1 = Some a ->
  heap s !! image2 = Some b ->
  valid_image a -> valid_image b ->
  im_mode a = "RGBA" -> im_mode b = "RGBA" ->
  exists out,
    yields (concatenate_images_horizontally image1 image2) W s out /\
    (forall x y,
       0 <= x < im_width a -> 0 <= y < im_height a ->
       exists px, pixel_at a x y = Some px /\
                  pixel_at out x y = Some (take 3 px)) /\
    (forall x y,
       0 <= x < im_width b -> 0 <= y < im_height b ->
       exists px, pixel_at b x y = Some px /\
                  pixel_at out (im_width a + x) y = Some (take 3 px)).
Proof.
  intros H1 H2 Ha Hb Hma Hmb.
  destruct (concatenated_spec (Image_convert W) a b Ha Hb)
    as (out & Hout & _ & Hmode & Hsize & Hpix).
  assert (Hsrc : forall im, im_mode im = "RGBA" ->
            paste_source (Image_convert W) out im = reinterpret_as_RGB im).
  { intros im Hm. unfold paste_source. rewrite Hmode, Hm. reflexivity. }
  pose proof Ha as (Hwa & Hha & _). pose proof Hb as (Hwb & Hhb & _).
  exists out. split; [by eapply concatenate_yields|].
  assert (Wout : im_width out = im_width a + im_width b)
    by (unfold im_width at 1; by rewrite Hsize).
  assert (Tout : im_height out = Z.max (im_height a) (im_height b))
    by (unfold im_height at 1; by rewrite Hsize).
  split.
  - intros x y Hx Hy. exists (raw_pixel a x y).
    split; [by apply pixel_at_valid|].
    rewrite Hpix by lia. f_equal.
    replace (in_second_region a b x y) with false
      by (symmetry; unfold in_second_region;
          rewrite !andb_false_iff, !Z.leb_gt, !Z.ltb_ge; lia).
    replace (in_first_region a x y) with true
      by (symmetry; unfold in_first_region;
          rewrite !andb_true_iff, !Z.leb_le, !Z.ltb_lt; lia).
    rewrite Hsrc by done. by apply raw_pixel_reinterpret.
  - intros x y Hx Hy. exists (raw_pixel b x y).
    split; [by apply pixel_at_valid|].
    rewrite Hpix by lia. f_equal.
    replace (in_second_region a b (im_width a + x) y) with true
      by (symmetry; unfold in_second_region;
          rewrite !andb_true_iff, !Z.leb_le, !Z.ltb_lt; lia).
    rewrite Hsrc by done.
    replace (im_width a + x - im_width a) with x by lia.
    by apply raw_pixel_reinterpret.
Qed.

(** Two valid images of the same mode and size with the same pixels are the
    same image. *)
Lemma image_ext a b :
  valid_image a -> valid_image b ->
  im_mode a = im_mode b -> im_size a = im_size b ->
  (forall x y, 0 <= x < im_width a -> 0 <= y < im_height a ->
               raw_pixel a x y = raw_pixel b x y) ->
  a = b.
Proof.
  destruct a as [ma [wa ha] ra], b as [mb [wb hb] rb].
  unfold valid_image, im_width, im_height, raw_pixel. cbn [im_mode im_size im_rows fst snd].
  intros (Hwa & Hha & Hla & Hra) (_ & _ & Hlb & Hrb) -> [= -> ->] Hpix.
  f_equal. apply list_eq. intros i.
  destruct (decide (i < Z.to_nat hb)%nat) as [Hi|Hi].
  2: { rewrite !lookup_ge_None_2 by lia. done. }
  destruct (lookup_lt_is_Some_2 ra i) as [rowa Hrowa]; [lia|].
  destruct (lookup_lt_is_Some_2 rb i) as [rowb Hrowb]; [lia|].
  rewrite Hrowa, Hrowb. f_equal.
  pose proof (Forall_lookup_1 _ _ _ _ Hra Hrowa) as Hlena.
  pose proof (Forall_lookup_1 _ _ _ _ Hrb Hrowb) as Hlenb.
  cbn beta in Hlena, Hlenb.
  apply list_eq. intros j.
  destruct (decide (j < Z.to_nat wb)%nat) as [Hj|Hj].
  2: { rewrite !lookup_ge_None_2 by lia. done. }
  destruct (lookup_lt_is_Some_2 rowa j) as [pa Hpa]; [lia|].
  destruct (lookup_lt_is_Some_2 rowb j) as [pb Hpb]; [lia|].
  specialize (Hpix (Z.of_nat j) (Z.of_nat i)).
  rewrite !Nat2Z.id in Hpix. rewrite Hrowa, Hrowb in Hpix. cbn in Hpix.
  unfold pixel in *. rewrite Hpa, Hpb in Hpix |- *. cbn in Hpix.
  f_equal. apply Hpix; lia.
Qed.

(** The output for raster images, pixel by pixel. *)
Lemma concatenated_raster cv a b :
  raster_image a -> raster_image b ->
  exists out,
    concatenated cv a b = Ok out /\
    raster_image out /\
    im_size out = (im_width a + im_width b, Z.max (im_height a) (im_height b)) /\
    forall x y,
      0 <= x < im_width a + im_width b ->
      0 <= y < Z.max (im_height a) (im_height b) ->
      raw_pixel out x y =
        if in_second_region a b x y then raw_pixel b (x - im_width a) y
        else if in_first_region a x y then raw_pixel a x y
        else black.
Proof.
  intros [Ha Hma] [Hb Hmb].
  destruct (concatenated_spec cv a b Ha Hb) as (out & Hout & Hv & Hm & Hs & Hpix).
  exists out. split; [done|]. split; [done|]. split; [done|].
  intros x y Hx Hy.
  assert (Hx' : 0 <= x < im_width out) by (unfold im_width; rewrite Hs; exact Hx).
  assert (Hy' : 0 <= y < im_height out) by (unfold im_height; rewrite Hs; exact Hy).
  specialize (Hpix x y Hx' Hy'). rewrite pixel_at_valid in Hpix by done.
  rewrite !paste_source_same_mode in Hpix by congruence.
  congruence.
Qed.

Lemma raster_image_sizes im :
  raster_image im -> 0 <= im_width im /\ 0 <= im_height im.
Proof. intros [(Hw & Hh & _) _]. done. Qed.

Lemma concatenated_assoc cv a b c :
  raster_image a -> raster_image b -> raster_image c ->
  exists ab bc out,
    concatenated cv a b = Ok ab /\
    concatenated cv b c = Ok bc /\
    concatenated cv ab c = Ok out /\
    concatenated cv a bc = Ok out.
Proof.
  intros Ha Hb Hc.
  destruct (concatenated_raster cv a b Ha Hb) as (ab & Hab & Rab & Sab & Pab).
  destruct (concatenated_raster cv b c Hb Hc) as (bc & Hbc & Rbc & Sbc & Pbc).
  destruct (concatenated_raster cv ab c Rab Hc) as (o1 & Ho1 & R1 & S1 & P1).
  destruct (concatenated_raster cv a bc Ha Rbc) as (o2 & Ho2 & R2 & S2 & P2).
  exists ab, bc, o1. repeat split; try done.
  rewrite Ho2. f_equal. symmetry.
  pose proof (raster_image_sizes a Ha) as [Hwa Hha].
  pose proof (raster_image_sizes b Hb) as [Hwb Hhb].
  pose proof (raster_image_sizes c Hc) as [Hwc Hhc].
  assert (Wab : im_width ab = im_width a + im_width b)
    by (unfold im_width at 1; by rewrite Sab).
  assert (Tab : im_height ab = Z.max (im_height a) (im_height b))
    by (unfold im_height at 1; by rewrite Sab).
  assert (Wbc : im_width bc = im_width b + im_width c)
    by (unfold im_width at 1; by rewrite Sbc).
  assert (Tbc : im_height bc = Z.max (im_height b) (im_height c))
    by (unfold im_height at 1; by rewrite Sbc).
  apply image_ext.
  - apply R1.
  - apply R2.
  - destruct R1 as [_ ->], R2 as [_ ->]. done.
  - rewrite S1, S2, Wab, Tab, Wbc, Tbc. f_equal; lia.
  - intros x y. unfold im_width at 1, im_height at 1. rewrite S1. cbn [fst snd].
    intros Hx Hy.
    rewrite P1 by done. rewrite P2 by (rewrite ?Wbc, ?Tbc; lia).
    unfold in_first_region, in_second_region.
    rewrite Wab, Tab, Wbc, Tbc.
    repeat first
      [ rewrite Pab by lia
      | rewrite Pbc by lia
      | progress unfold in_first_region, in_second_region
      | match goal with
        | |- context [if ?c then _ else _] =>
            let E := fresh "E" in
            destruct c eqn:E;
            [ rewrite !andb_true_iff, !Z.leb_le, !Z.ltb_lt in E
            | rewrite !andb_false_iff, !Z.leb_gt, !Z.ltb_ge in E ]
        end ].
    all: first [ reflexivity | f_equal; lia | exfalso; lia ].
Qed.

(** X10: concatenation is associative on raster images: joining [a] and
    [b] and then [c] gives the same image, byte for byte, as joining [a]
    with the join of [b] and [c]. *)
Theorem concatenate_associative W s ra rb rc a b c :
  heap s !! ra = Some a ->
  heap s !! rb = Some b ->
  heap s !! rc = Some c ->
  raster_image a -> raster_image b -> raster_image c ->
  exists out,
    yields (ab <- concatenate_images_horizontally ra rb ;;
            concatenate_images_horizontally ab rc) W s out /\
    yields (bc <- concatenate_images_horizontally rb rc ;;
            concatenate_images_horizontally ra bc) W s out.
Proof.
  intros Hra Hrb Hrc Ha Hb Hc.
  destruct (concatenated_assoc (Image_convert W) a b c Ha Hb Hc)
    as (ab & bc & out & Hab & Hbc & Ho1 & Ho2).
  exists out. unfold yields, bind. split.
  - rewrite (concatenate_run W s ra rb a b Hra Hrb), Hab.
    rewrite (concatenate_run W _ (length (heap s)) rc ab c), Ho1.
    + eexists _, _. split; [reflexivity|]. cbn [heap]. apply lookup_snoc_new.
    + cbn [heap]. apply lookup_snoc_new.
    + cbn [heap]. by apply lookup_snoc_old.
  - rewrite (concatenate_run W s rb rc b c Hrb Hrc), Hbc.
    rewrite (concatenate_run W _ ra (length (heap s)) a bc), Ho2.
    + eexists _, _. split; [reflexivity|]. cbn [heap]. apply lookup_snoc_new.
    + cbn [heap]. by apply lookup_snoc_old.
    + cbn [heap]. apply lookup_snoc_new.
Qed.

(** X11: joining a raster image with an image of width zero that is not
    taller, on either side, gives a copy of the image. *)
Theorem concatenate_with_empty W s ra re a e :
  heap s !! ra = Some a ->
  heap s !! re = Some e ->
  raster_image a -> raster_image e ->
  im_width e = 0 -> im_height e <= im_height a ->
  yields (concatenate_images_horizontally ra re) W s a /\
  yields (concatenate_images_horizontally re ra) W s a.
Proof.
  intros Hra Hre Ha He Hw Hh.
  pose proof (raster_image_sizes a Ha) as [Hwa Hha].
  pose proof (raster_image_sizes e He) as [_ Hhe].
  assert (Hsize : (im_width a, im_height a) = im_size a)
    by (unfold im_width, im_height; by destruct (im_size a)).
  split.
  - destruct (concatenated_raster (Image_convert W) a e Ha He)
      as (out & Hout & Rout & Sout & Pout).
    assert (E : out = a); [|rewrite <- E; by eapply concatenate_yields].
    apply image_ext; [apply Rout | apply Ha | | |].
    + destruct Rout as [_ ->], Ha as [_ ->]. done.
    + rewrite Sout, Hw, <- Hsize. f_equal; lia.
    + intros x y. unfold im_width at 1, im_height at 1. rewrite Sout.
      cbn [fst snd]. intros Hx Hy. rewrite Pout by done.
      unfold in_second_region, in_first_region. rewrite Hw.
      replace ((im_width a <=? x) && (x <? im_width a + 0) && (0 <=? y)
               && (y <? im_height e)) with false
        by (symmetry; rewrite !andb_false_iff, !Z.leb_gt, !Z.ltb_ge; lia).
      replace ((0 <=? x) && (x <? im_width a) && (0 <=? y) && (y <? im_height a))
        with true
        by (symmetry; rewrite !andb_true_iff, !Z.leb_le, !Z.ltb_lt; lia).
      reflexivity.
  - destruct (concatenated_raster (Image_convert W) e a He Ha)
      as (out & Hout & Rout & Sout & Pout).
    assert (E : out = a); [|rewrite <- E; by eapply concatenate_yields].
    apply image_ext; [apply Rout | apply Ha | | |].
    + destruct Rout as [_ ->], Ha as [_ ->]. done.
    + rewrite Sout, Hw, <- Hsize. f_equal; lia.
    + intros x y. unfold im_width at 1, im_height at 1. rewrite Sout.
      cbn [fst snd]. intros Hx Hy. rewrite Pout by done.
      unfold in_second_region, in_first_region. rewrite Hw.
      replace ((0 <=? x) && (x <? 0 + im_width a) && (0 <=? y)
               && (y <? im_height a)) with true
        by (symmetry; rewrite !andb_true_iff, !Z.leb_le, !Z.ltb_lt; lia).
      f_equal. lia.
Qed.

Lemma concatenate_drops_alpha_witness :
  exists out,
    yields (concatenate_images_horizontally 0%nat 1%nat) friendly_world
      (two_images translucent translucent) out /\
    (forall x y,
       0 <= x < 1 -> 0 <= y < 1 ->
       exists px, pixel_at translucent x y = Some px /\
                  pixel_at out x y = Some (take 3 px)) /\
    (forall x y,
       0 <= x < 1 -> 0 <= y < 1 ->
       exists px, pixel_at translucent x y = Some px /\
                  pixel_at out (1 + x) y = Some (take 3 px)).
Proof.
  assert (Hv : valid_image translucent).
  { unfold valid_image. cbn. repeat split; try lia. repeat constructor. }
  apply (concatenate_drops_alpha friendly_world
           (two_images translucent translucent) 0%nat 1%nat
           translucent translucent);
    [reflexivity | reflexivity | exact Hv | exact Hv | reflexivity | reflexivity].
Defined.

Lemma concatenate_associative_witness :
  exists out,
    yields (ab <- concatenate_images_horizontally 0%nat 1%nat ;;
            concatenate_images_horizontally ab 2%nat) friendly_world
      (three_images (solid 2 1 white) (solid 1 2 black) (solid 1 3 white)) out /\
    yields (bc <- concatenate_images_horizontally 1%nat 2%nat ;;
            concatenate_images_horizontally 0%nat bc) friendly_world
      (three_images (solid 2 1 white) (solid 1 2 black) (solid 1 3 white)) out.
Proof.
  apply (concatenate_associative friendly_world
           (three_images (solid 2 1 white) (solid 1 2 black) (solid 1 3 white))
           0%nat 1%nat 2%nat
           (solid 2 1 white) (solid 1 2 black) (solid 1 3 white));
    [reflexivity | reflexivity | reflexivity
     | apply solid_raster_image; lia | apply solid_raster_image; lia
     | apply solid_raster_image; lia].
Defined.

Lemma concatenate_with_empty_witness :
  yields (concatenate_images_horizontally 0%nat 1%nat) friendly_world
    (two_images (solid 2 1 white) (solid 0 0 white)) (solid 2 1 white) /\
  yields (concatenate_images_horizontally 1%nat 0%nat) friendly_world
    (two_images (solid 2 1 white) (solid 0 0 white)) (solid 2 1 white).
Proof.
  apply (concatenate_with_empty friendly_world
           (two_images (solid 2 1 white) (solid 0 0 white)) 0%nat 1%nat
           (solid 2 1 white) (solid 0 0 white));
    [reflexivity | reflexivity
     | apply solid_raster_image; lia | apply solid_raster_image; lia
     | reflexivity | cbn; lia].
Defined.
